(** * BunkBot: a shallow embedding of the leveling engine, the mini-game
      base, the Connect-Four router and the stream tracker.

    Python values are modelled as follows: [int] as [Z], a finite [float]
    as the rational [Q] it denotes, with [rpg.binary64] for the rounding of
    an arithmetic result to the nearest float, [str] as [string], [None]-able
    references as [option], dictionaries keyed by strings as [gmap string],
    lists as [list].  Code that can raise returns an [outcome]; code that
    mutates objects or talks to the chat gateway threads a state. *)

From Stdlib Require Import ZArith QArith Qround Qabs Lqa Lia Bool List Ascii String.
From stdpp Require Import base option list gmap strings pretty.
Import ListNotations.

Local Open Scope Z_scope.
Local Open Scope string_scope.

(* ===================================================================== *)
(** * Python control flow: exceptions over a mutable state               *)
(* ===================================================================== *)

Module py.

(** The exceptions the embedded code raises or catches. *)
Inductive exn : Type :=
| KeyError (key : string)
| AttributeError (attr : string)
| IndexError
| TypeError
| OverflowError
| BunkException (message : string)
| Exception (what : string).

Inductive outcome (A : Type) : Type :=
| Returned (a : A)
| Raised (e : exn).
Arguments Returned {A} a.
Arguments Raised {A} e.

(** A computation over a state of type [S]: a raised exception keeps the
    state changes made before it. *)
Definition M (S A : Type) : Type := S -> outcome A * S.

Definition ret {S A} (a : A) : M S A := fun s => (Returned a, s).

Definition bind {S A B} (m : M S A) (k : A -> M S B) : M S B :=
  fun s => match m s with
           | (Returned a, s') => k a s'
           | (Raised e, s') => (Raised e, s')
           end.

Definition raise {S A} (e : exn) : M S A := fun s => (Raised e, s).

Definition get {S} : M S S := fun s => (Returned s, s).
Definition modify {S} (f : S -> S) : M S unit := fun s => (Returned tt, f s).

(** [try: body except <any> as e: handler e]. *)
Definition try_except {S A} (body : M S A) (handler : exn -> M S A) : M S A :=
  fun s => match body s with
           | (Returned a, s') => (Returned a, s')
           | (Raised e, s') => handler e s'
           end.

(** Run a computation on one component of a pair of states. *)
Definition on_fst {S T A} (m : M S A) : M (S * T) A :=
  fun st => let '(r, s') := m (fst st) in (r, (s', snd st)).
Definition on_snd {S T A} (m : M T A) : M (S * T) A :=
  fun st => let '(r, t') := m (snd st) in (r, (fst st, t')).

(** [for x in xs: body x]. *)
Fixpoint for_each {S A} (xs : list A) (body : A -> M S unit) : M S unit :=
  match xs with
  | [] => ret tt
  | x :: rest => bind (body x) (fun _ => for_each rest body)
  end.

(** [xs[i]] on a list. *)
Definition getitem {S A} (xs : list A) (i : nat) : M S A :=
  match xs !! i with
  | Some x => ret x
  | None => raise IndexError
  end.

(** [s.lower()], on the characters A-Z; every other character is kept. *)
Definition lower_char (c : ascii) : ascii :=
  let n := nat_of_ascii c in
  if ((65 <=? n) && (n <=? 90))%nat then ascii_of_nat (n + 32) else c.

Fixpoint lower (s : string) : string :=
  match s with
  | EmptyString => EmptyString
  | String c rest => String (lower_char c) (lower rest)
  end.

(** [s.split(sep)] for a one-character separator: never an empty list. *)
Fixpoint split (sep : ascii) (s : string) : list string :=
  match s with
  | EmptyString => [EmptyString]
  | String c rest =>
      if Ascii.eqb c sep then EmptyString :: split sep rest
      else match split sep rest with
           | seg :: segs => String c seg :: segs
           | [] => [String c EmptyString]
           end
  end.

(** Truthiness of a reference that is either [None] or an object. *)
Definition truthy {A} (o : option A) : bool :=
  match o with Some _ => true | None => false end.

Declare Scope py_scope.
Delimit Scope py_scope with py.
Notation "'let*' x := c 'in' k" := (bind c (fun x => k))
  (at level 10, x name, c at level 100, k at level 200) : py_scope.

End py.
Import py.
Local Open Scope py_scope.

(* ===================================================================== *)
(** * The chat platform: data carried by gateway objects                *)
(* ===================================================================== *)

Module discord.

(** [status] is [str(member.status)]. *)
Record Member : Type := {
  member_id : Z;
  name : string;
  mention : string;
  status : string;
  bot : bool
}.

Record TextChannel : Type := {
  channel_id : Z;
  channel_name : string
}.

Record Message : Type := {
  id : Z;
  content : string;
  author : Member;
  channel : TextChannel
}.

(** The invocation context of a command: [ctx.message]. *)
Record Context : Type := { message : Message }.

Record EmbedField : Type := {
  field_name : string;
  field_value : string;
  inline : bool
}.

Record Embed : Type := {
  title : string;
  color : Z;
  fields : list EmbedField;
  thumbnail : string;
  footer_text : string;
  footer_icon : string
}.

End discord.
Import discord.

(** Records of the streaming-platform client. *)
Module twitch.

Record User : Type := { user_id : Z; display_name : string }.

(** A live stream; [url] is [strm.channel.url]. *)
Record Stream : Type := { url : string }.

End twitch.

(* ===================================================================== *)
(** * Collaborators outside the modelled files                           *)
(* ===================================================================== *)

(** The bot core, the gateway objects' own methods, the user service, the
    streaming-platform client and the wall clock are not part of the files
    embedded here.  They are an interface over an abstract state [Chat] of
    the outside world; each call may return or raise. *)
Class Platform (Chat BunkUser : Type) : Type := {
  (* attributes of the bot core *)
  general : TextChannel;
  streams : TextChannel;
  (* facade of the bot core *)
  send_typing : TextChannel -> M Chat unit;
  say_to_channel : TextChannel -> option string -> option Embed -> M Chat Message;
  say : option string -> option Embed -> M Chat Message;
  edit_message : option Message -> option string -> option Embed -> M Chat Message;
  delete_message : Message -> M Chat unit;
  handle_error : exn -> string -> M Chat unit;
  get_cmd_params : Context -> list string;
  (* methods of gateway objects *)
  Message_delete : Message -> M Chat unit;
  TextChannel_delete : TextChannel -> M Chat unit;
  (* user and channel services *)
  users_get_by_id : Z -> M Chat BunkUser;
  create_game_channel : string -> BunkUser -> M Chat (option TextChannel);
  (* streaming-platform client *)
  translate_usernames_to_ids : list string -> M Chat (list twitch.User);
  get_stream_by_user : Z -> M Chat (option twitch.Stream);
  (* clocks of the stream tracker *)
  datetime_now_hour : M Chat Z;
  now : M Chat string
}.

(** Two more collaborators outside the modelled files: the purge of the bot
    core and the job scheduler (src/util/async.py), where a job is a routine
    of type [Job]; and the typing indicator of the bot core when it is
    handed an invocation context instead of a channel. *)
Class Housekeeping (Chat Job : Type) : Type := {
  bot_purge_from : TextChannel -> (Message -> bool) -> M Chat unit;
  add_job : Job -> string -> Z -> M Chat unit
}.

Class ContextTyping (Chat : Type) : Type := {
  send_typing_ctx : Context -> M Chat unit
}.

(* ===================================================================== *)
(** * src/util/event_hook.py                                              *)
(* ===================================================================== *)

Module event_hook.

(** Modelled from the spec: the event-hook primitive is not among the
    sources.  "An ordered set of asynchronous subscriber callbacks; firing
    invokes all subscribers with the same arguments, in subscription
    order, and awaits each in turn." *)
Definition EventHook (S Args : Type) : Type := list (Args -> M S unit).

(** Modelled from the spec: [EventHook()], a hook without subscribers. *)
Definition new {S Args} : EventHook S Args := [].

(** Modelled from the spec: [hook += handler], "subscribers attach by
    reference", the new one last in subscription order. *)
Definition iadd {S Args} (hook : EventHook S Args) (handler : Args -> M S unit)
  : EventHook S Args := (hook ++ [handler])%list.

(** Modelled from the spec: [hook.fire(args)], every subscriber in turn. *)
Definition fire {S Args} (hook : EventHook S Args) (args : Args) : M S unit :=
  for_each hook (fun handler => handler args).

End event_hook.

(* ===================================================================== *)
(** * src/storage/db.py                                                   *)
(* ===================================================================== *)

Module db.

(** A per-user progression document: [user["xp"]], [user["level"]]. *)
Record UserDoc : Type := { xp : Q; level : Z }.

(** The user operations of the storage singleton, which is not among the
    sources: an interface over an abstract store [DB].  [get_user] may
    answer [None], which the engine tests for. *)
Class Database (DB : Type) : Type := {
  get_user : Member -> DB -> option UserDoc * DB;
  update_user_xp : Member -> Q -> DB -> UserDoc * DB;
  update_user_level : Member -> DB -> UserDoc * DB
}.

(** A followed-stream document: [s["name"]], [s["added_by"]]. *)
Record FollowedStream : Type := { name : string; added_by : string }.

(** Modelled from the spec: the [streams] collection of the storage
    singleton is not among the sources.  "[streams.all()] — return every
    followed-stream record"; "[streams.insert(record)] — append a new
    followed-stream record"; "[streams.get(query-by-name)] — look up a
    single followed-stream record by exact name match, or an absent
    result". *)
Definition streams_all (tbl : list FollowedStream) : list FollowedStream := tbl.

(** Modelled from the spec: [streams.insert(record)], see above. *)
Definition streams_insert (record : FollowedStream) (tbl : list FollowedStream)
  : list FollowedStream := (tbl ++ [record])%list.

(** Modelled from the spec: [streams.get(Query().name == sname)], see
    above; the first record with that name. *)
Definition streams_get (sname : string) (tbl : list FollowedStream)
  : option FollowedStream :=
  List.find (fun s => String.eqb (name s) sname) tbl.

End db.

(* ===================================================================== *)
(** * src/cogs/rpg/rpg.py                                                 *)
(* ===================================================================== *)

Module rpg.

Definition XP_CONST : Z := 5.
Definition UPDATE_CAP : Z := 60.
Definition TIMER_MINUTES : Z := 1.

(** [a < b] on floats. *)
Definition Qlt_bool (a b : Q) : bool := negb (Qle_bool b a).

(** Round to the nearest integer, ties to the even one. *)
Definition round_half_even (x : Q) : Z :=
  let f := Qfloor x in
  let r := (x - inject_Z f)%Q in
  if Qlt_bool r (1 # 2) then f
  else if Qlt_bool (1 # 2) r then f + 1
  else if Z.even f then f else f + 1.

(** Python's [round(x, ndigits)]: the nearest multiple of [10^-ndigits],
    ties to even. *)
Definition round (x : Q) (ndigits : Z) : Q :=
  let scale := inject_Z (10 ^ ndigits) in
  (inject_Z (round_half_even (x * scale)) / scale)%Q.

(** The float nearest to a non-negative real [x], ties to the even
    mantissa.  A float is a mantissa of at most 53 bits times a power of
    two that is at least [2^-1074]: with [s] the real in units of
    [2^-1074], the spacing of the floats around it is [2^k] units. *)
Definition binary64_pos (x : Q) : Q :=
  let s := (x * inject_Z (2 ^ 1074))%Q in
  let k := Z.max (Z.log2 (Qfloor s) - 52) 0 in
  let m := round_half_even (s / inject_Z (2 ^ k)) in
  (inject_Z (m * 2 ^ k) / inject_Z (2 ^ 1074))%Q.

(** The float nearest to a real, as a fraction in lowest terms.  The
    result is finite: where the hardware answers [inf], from [2^1024] on,
    the rounding goes on with the same 53 bits. *)
Definition binary64 (x : Q) : Q :=
  Qred (if Qle_bool 0 x then binary64_pos x else - binary64_pos (- x)).

(** [a + b] on floats. *)
Definition fadd (a b : Q) : Q := binary64 (a + b).

(** The conversion of an exact integer or quotient of integers to a
    float: [float(i)] and [i / j] raise [OverflowError] when the nearest
    float is out of range. *)
Definition float_of (x : Q) : outcome Q :=
  let r := binary64 x in
  if Qle_bool (inject_Z (2 ^ 1024)) (Qabs r) then Raised OverflowError
  else Returned r.

(** calculate the required xp for a given level: the float the expression
    evaluates to, when it evaluates.  The integer [(XP_CONST * level *
    level) - (XP_CONST * level)] is exact, [level / 2] is the nearest
    float, [round(_, 2)] the float nearest to the decimal rounding, and the
    sum a float addition after the conversion of the integer. *)
Definition calc_req_xp (level : Z) : Q :=
  fadd (binary64 (inject_Z ((XP_CONST * level * level) - (XP_CONST * level))))
       (binary64 (round (binary64 (inject_Z level / 2)) 2)).

(** The evaluation with the two steps that can fail, in the order they
    are taken: the division, then the conversion of the integer.  It
    raises for levels beyond any a member reaches (about [10^153]); the
    engine below compares with the float of [calc_req_xp]. *)
Definition calc_req_xp_checked (level : Z) : outcome Q :=
  match float_of (inject_Z level / 2) with
  | Raised e => Raised e
  | Returned half =>
      match float_of (inject_Z ((XP_CONST * level * level) - (XP_CONST * level))) with
      | Raised e => Raised e
      | Returned f => Returned (fadd f (binary64 (round half 2)))
      end
  end.

(** calculate the xp required to advance to the next level *)
Definition level_up (xp : Q) (level : Z) : bool :=
  Qle_bool (calc_req_xp level) xp.

(** An entry of [self.config]: [{"value": ..., "last_update": ...}]. *)
Record ActivityWindow : Type := { value : Q; last_update : Q }.

(** What the engine does to the world outside itself, in order. *)
Inductive Event : Type :=
| StorageGetUser (member : Member)
| StorageUpdateUserXp (member : Member) (value : Q)
| StorageUpdateUserLevel (member : Member)
| HookFired (member : Member) (level : Z).

(** The world the engine runs in: the store, the chat platform, the wall
    clock ([clock k] is what the [k]-th call of [time.time()] returns)
    and the trace of storage calls and hook firings. *)
Record World (DB Chat : Type) : Type := {
  store : DB;
  chat : Chat;
  clock : nat -> Q;
  reads : nat;
  trace : list Event
}.
Arguments store {DB Chat} _.
Arguments chat {DB Chat} _.
Arguments clock {DB Chat} _ _.
Arguments reads {DB Chat} _.
Arguments trace {DB Chat} _.

(** The engine object: the attributes [__init__] creates, and whatever
    hook attribute is set on the instance later. *)
Record RPG (DB Chat : Type) : Type := {
  config : gmap string ActivityWindow;
  on_user_level_up : event_hook.EventHook (World DB Chat) (Member * Z);
  other_attrs : gmap string (event_hook.EventHook (World DB Chat) (Member * Z))
}.
Arguments config {DB Chat} _.
Arguments on_user_level_up {DB Chat} _.
Arguments other_attrs {DB Chat} _.

(** The value of an attribute of the engine object. *)
Inductive Attr (DB Chat : Type) : Type :=
| AttrConfig (c : gmap string ActivityWindow)
| AttrHook (h : event_hook.EventHook (World DB Chat) (Member * Z))
| AttrMethod (method : string).
Arguments AttrConfig {DB Chat} c.
Arguments AttrHook {DB Chat} h.
Arguments AttrMethod {DB Chat} method.

(** Field updates of the two records. *)
Definition set_config {DB Chat} (c : gmap string ActivityWindow)
    (self : RPG DB Chat) : RPG DB Chat :=
  {| config := c; on_user_level_up := on_user_level_up self;
     other_attrs := other_attrs self |}.

Definition set_chat {DB Chat} (c : Chat) (w : World DB Chat) : World DB Chat :=
  {| store := store w; chat := c; clock := clock w; reads := reads w;
     trace := trace w |}.

(** The world after one more reading of the clock. *)
Definition tick {DB Chat} (w : World DB Chat) : World DB Chat :=
  {| store := store w; chat := chat w; clock := clock w; reads := S (reads w);
     trace := trace w |}.

(** The world after an event that leaves the store as [d]. *)
Definition record {DB Chat} (e : Event) (d : DB) (w : World DB Chat) : World DB Chat :=
  {| store := d; chat := chat w; clock := clock w; reads := reads w;
     trace := (trace w ++ [e])%list |}.

Section engine.
Context {DB Chat BunkUser : Type}.
Context `{!db.Database DB} `{!Platform Chat BunkUser}.

Abbreviation W := (World DB Chat).

Definition __init__ : RPG DB Chat :=
  {| config := ∅; on_user_level_up := event_hook.new; other_attrs := ∅ |}.

(** [getattr(self, attr)] *)
Definition getattr (attr : string) : M (RPG DB Chat) (Attr DB Chat) :=
  fun self =>
    if String.eqb attr "config" then (Returned (AttrConfig (config self)), self)
    else if String.eqb attr "on_user_level_up"
      then (Returned (AttrHook (on_user_level_up self)), self)
    else if existsb (String.eqb attr)
              ["sync_user_xp"; "update_user_xp"; "calc_req_xp"; "level_up"]
      then (Returned (AttrMethod attr), self)
    else match other_attrs self !! attr with
         | Some h => (Returned (AttrHook h), self)
         | None => (Raised (AttributeError attr), self)
         end.

(** [setattr(self, attr, hook)] for a hook value. *)
Definition setattr_hook (attr : string)
    (h : event_hook.EventHook W (Member * Z)) : M (RPG DB Chat) unit :=
  fun self =>
    if String.eqb attr "on_user_level_up"
    then (Returned tt, {| config := config self; on_user_level_up := h;
                          other_attrs := other_attrs self |})
    else (Returned tt, {| config := config self;
                          on_user_level_up := on_user_level_up self;
                          other_attrs := <[attr := h]> (other_attrs self) |}).

(** [time.time()] *)
Definition time_time : M W Q :=
  fun w => (Returned (clock w (reads w)), tick w).

(** A call of the storage singleton, recorded in the trace. *)
Definition storage {A} (e : Event) (op : DB -> A * DB) : M W A :=
  fun w => let '(a, d) := op (store w) in (Returned a, record e d w).

(** An entry of the trace that leaves the store alone. *)
Definition log (e : Event) : M W unit :=
  fun w => (Returned tt, record e (store w) w).

(** A call of the chat platform. *)
Definition platform {A} (op : M Chat A) : M W A :=
  fun w => let '(r, c) := op (chat w) in (r, set_chat c w).

(** [self.config[key]] *)
Definition getitem_config (key : string) : M (RPG DB Chat * W) ActivityWindow :=
  fun st => match config (fst st) !! key with
            | Some user => (Returned user, st)
            | None => (Raised (KeyError key), st)
            end.

(** [self.config[key] = user], also the effect of writing the fields of
    the dictionary that [self.config[key]] refers to. *)
Definition setitem_config (key : string) (user : ActivityWindow)
  : M (RPG DB Chat * W) unit :=
  fun st => (Returned tt,
             (set_config (<[key := user]> (config (fst st))) (fst st), snd st)).

(** [await self.on_user_level_up.fire(member, level)] *)
Definition fire_on_user_level_up (member : Member) (level : Z)
  : M (RPG DB Chat * W) unit :=
  fun st =>
    on_snd (let* _ := log (HookFired member level) in
            event_hook.fire (on_user_level_up (fst st)) (member, level)) st.

(** sync a users level with the config if they log on or off *)
Definition sync_user_xp (member : Member) : M (RPG DB Chat * W) unit :=
  let* new_user :=
    try_except
      (let* user := getitem_config (discord.name member) in
       let* new_user := on_snd (storage (StorageUpdateUserXp member (value user))
                                  (db.update_user_xp member (value user))) in
       ret (Some new_user))
      (fun _ => ret None) in
  let* new_user :=
    match new_user with
    | None => on_snd (storage (StorageGetUser member) (db.get_user member))
    | Some u => ret (Some u)
    end in
  match new_user with
  | Some new_user =>
      if String.eqb (status member) "online"
         && level_up (db.xp new_user) (db.level new_user + 1)
      then
        let* _ := on_snd (storage (StorageUpdateUserLevel member)
                            (db.update_user_level member)) in
        if String.eqb (status member) "online" then
          let* leveled_user := on_snd (storage (StorageUpdateUserLevel member)
                                         (db.update_user_level member)) in
          fire_on_user_level_up member (db.level leveled_user)
        else ret tt
      else ret tt
  | None => ret tt
  end.

(** every time a user sends a message process it for "leveling" logic.
    The difference of the two clock readings and its quotient by 60 are
    the exact ones; the sum of the accumulator and the value is the float
    sum. *)
Definition update_user_xp (member : Member) (value : Q) (duel : bool)
  : M (RPG DB Chat * W) unit :=
  let* user :=
    try_except
      (getitem_config (discord.name member))
      (fun _ =>
         let* t := on_snd time_time in
         let* _ := setitem_config (discord.name member)
                     {| value := value; last_update := t |} in
         getitem_config (discord.name member)) in
  let* t := on_snd time_time in
  let diff := (t - last_update user)%Q in
  if duel || Qlt_bool 0 diff then
    let min_diff := (diff / 60)%Q in
    if negb duel && Qle_bool min_diff (inject_Z TIMER_MINUTES) then
      if Qlt_bool (rpg.value user) (inject_Z UPDATE_CAP) then
        setitem_config (discord.name member)
          {| value := fadd (rpg.value user) value;
             last_update := last_update user |}
      else ret tt
    else
      let* new_user := on_snd (storage (StorageUpdateUserXp member (rpg.value user))
                                 (db.update_user_xp member (rpg.value user))) in
      let* _ :=
        if level_up (db.xp new_user) (db.level new_user + 1) then
          let* leveled_user := on_snd (storage (StorageUpdateUserLevel member)
                                         (db.update_user_level member)) in
          fire_on_user_level_up member (db.level leveled_user)
        else ret tt in
      let* t' := on_snd time_time in
      setitem_config (discord.name member)
        {| value := value; last_update := t' |}
  else ret tt.

End engine.

End rpg.

(* ===================================================================== *)
(** * src/cogs/rpg/rpg_cog.py                                             *)
(* ===================================================================== *)

Module rpg_cog.

Section cog.
Context {DB Chat BunkUser : Type}.
Context `{!db.Database DB} `{!Platform Chat BunkUser}.

(** DING - user has leveled up: inform them *)
Definition ding (member : Member) (value : Z) : M (rpg.World DB Chat) unit :=
  if negb (String.eqb (discord.name member) "fugwenna") then
    let* _ := rpg.platform
                (say_to_channel general
                   (Some (":bell: DING! " ++ mention member
                          ++ " has advanced to level " ++ pretty value ++ "!"))
                   None) in
    ret tt
  else ret tt.

(** [BunkRPG.__init__], acting on the engine singleton [rpg]:
    [rpg.on_user_level += self.ding]. *)
Definition __init__ : M (rpg.RPG DB Chat) unit :=
  let* attr := rpg.getattr "on_user_level" in
  match attr with
  | rpg.AttrHook h =>
      rpg.setattr_hook "on_user_level"
        (event_hook.iadd h (fun args => ding (fst args) (snd args)))
  | _ => raise TypeError
  end.

Context `{!ContextTyping Chat}.

(** allow users to print out their current level; [user["level"]] on
    [None] raises [TypeError]. *)
Definition level (ctx : Context) : M (rpg.World DB Chat) unit :=
  let* _ := rpg.platform (send_typing_ctx ctx) in
  let* user := rpg.storage (rpg.StorageGetUser (author (message ctx)))
                 (db.get_user (author (message ctx))) in
  match user with
  | Some user =>
      let* _ := rpg.platform
                  (say (Some ("You are currently level " ++ pretty (db.level user)))
                     None) in
      ret tt
  | None => raise TypeError
  end.

End cog.

End rpg_cog.

(* ===================================================================== *)
(** * src/game/custom_game.py                                             *)
(* ===================================================================== *)

Module custom_game.

Record CustomGame : Type := { channel : TextChannel; is_cancelled : bool }.

Definition set_defaults : M CustomGame unit :=
  modify (fun self => {| channel := channel self; is_cancelled := false |}).

(** [self.channel = channel; self.set_defaults()] *)
Definition __init__ (channel : TextChannel) : CustomGame :=
  snd (set_defaults {| channel := channel; is_cancelled := false |}).

Section game.
Context {Chat BunkUser : Type} `{!Platform Chat BunkUser}.

Definition cancel_game : M (CustomGame * Chat) unit :=
  fun st => on_snd (TextChannel_delete (channel (fst st))) st.

Definition is_cancel (msg : Message) : M (CustomGame * Chat) unit :=
  let l_content := lower (content msg) in
  if String.eqb l_content "cancel" then
    let* _ := on_fst (modify (fun self =>
                {| channel := channel self; is_cancelled := true |})) in
    cancel_game
  else ret tt.

End game.

End custom_game.

(* ===================================================================== *)
(** * src/game/connect4/connectfour_cog.py                                *)
(* ===================================================================== *)

Module connectfour_cog.

(** The game engine (c4_game.py) is not among the sources: a game is an
    abstract object whose methods act on it and on the chat platform. *)
Class ConnectFourGame (Game Chat BunkUser : Type) : Type := {
  new_game : BunkUser -> TextChannel -> Game;
  start : M (Game * Chat) unit;
  update : Message -> BunkUser -> M (Game * Chat) unit
}.

Record ConnectFourCog (Game : Type) : Type := { games : list Game }.
Arguments games {Game} _.

Section cog.
Context {Game Chat BunkUser : Type}.
Context `{!Platform Chat BunkUser} `{!ConnectFourGame Game Chat BunkUser}.

Definition __init__ : ConnectFourCog Game := {| games := [] |}.

(** Call a method of the game object stored at [self.games[i]]. *)
Definition on_game {A} (i : nat) (game : Game) (method : M (Game * Chat) A)
  : M (ConnectFourCog Game * Chat) A :=
  fun st => let '(r, (game', c)) := method (game, snd st) in
            (r, ({| games := <[i := game']> (games (fst st)) |}, c)).

Definition connectfour (ctx : Context) : M (ConnectFourCog Game * Chat) unit :=
  let* _ := on_snd (Message_delete (message ctx)) in
  let* user := on_snd (users_get_by_id (member_id (author (message ctx)))) in
  let* channel := on_snd (create_game_channel "connect4" user) in
  match channel with
  | Some channel =>
      let game := new_game user channel in
      let* _ := on_fst (modify (fun self => {| games := (games self ++ [game])%list |})) in
      let* self := on_fst get in
      on_game (length (games self) - 1)%nat game start
  | None => ret tt
  end.

Definition get_answer (message : Message) : M (ConnectFourCog Game * Chat) unit :=
  if negb (bot (author message)) then
    if String.eqb (channel_name (discord.channel message)) "connect4-fugwenna" then
      let* user := on_snd (users_get_by_id (member_id (author message))) in
      let* _ := on_snd (Message_delete message) in
      let* self := on_fst get in
      let* game := getitem (games self) 0 in
      on_game 0 game (update message user)
    else ret tt
  else ret tt.

End cog.

End connectfour_cog.

(* ===================================================================== *)
(** * src/cogs/games/twitch_cog.py                                        *)
(* ===================================================================== *)

Module twitch_cog.

Definition TWITCH_ICON : string :=
  "https://vignette.wikia.nocookie.net/fallout/images/4/43/Twitch_icon.png/revision/latest?cb=20180507131302".

Record TwitchCog : Type := {
  current_stream_ids : list Z;
  msg_stream_list : option Message;
  msg_help : option Message;
  init_check : bool
}.

Definition __init__ : TwitchCog :=
  {| current_stream_ids := []; msg_stream_list := None; msg_help := None;
     init_check := true |}.

Definition set_msg_stream_list (m : option Message) (self : TwitchCog) : TwitchCog :=
  {| current_stream_ids := current_stream_ids self; msg_stream_list := m;
     msg_help := msg_help self; init_check := init_check self |}.

Definition set_msg_help (m : option Message) (self : TwitchCog) : TwitchCog :=
  {| current_stream_ids := current_stream_ids self;
     msg_stream_list := msg_stream_list self;
     msg_help := m; init_check := init_check self |}.

Definition set_init_check (b : bool) (self : TwitchCog) : TwitchCog :=
  {| current_stream_ids := current_stream_ids self;
     msg_stream_list := msg_stream_list self;
     msg_help := msg_help self; init_check := b |}.

(** [ref.id] for a reference that may be [None]. *)
Definition attr_id {S} (ref : option Message) : M S Z :=
  match ref with
  | Some m => ret (id m)
  | None => raise (AttributeError "id")
  end.

(** when purging messages from the streaming channel persist the
    self/streams messages *)
Definition rm_unwanted_messages_predicate (self : TwitchCog) (message : Message) : bool :=
  if negb (truthy (msg_stream_list self)) then true
  else if negb (truthy (msg_help self)) then true
  else match msg_stream_list self, msg_help self with
       | Some l, Some h => negb (id message =? id l)%Z && negb (id message =? id h)%Z
       | _, _ => true
       end.

(** Modelled from the spec: the bot core's purge primitive is not among the
    sources.  "Purge messages from a channel matching an optional
    predicate": the messages the [check] answers [True] for are deleted,
    the others stay in the channel. *)
Definition purge_from (history : list Message) (check : Message -> bool)
  : list Message :=
  List.filter (fun m => negb (check m)) history.

(** [sorted(all_streams, key=lambda x: x["name"])]: a stable insertion
    sort on the names. *)
Fixpoint insert_by_name (s : db.FollowedStream) (l : list db.FollowedStream)
  : list db.FollowedStream :=
  match l with
  | [] => [s]
  | s' :: rest =>
      if String.leb (db.name s) (db.name s') then s :: s' :: rest
      else s' :: insert_by_name s rest
  end.

Definition sorted_by_name (l : list db.FollowedStream) : list db.FollowedStream :=
  List.fold_right insert_by_name [] l.

Section cog.
Context {Chat BunkUser : Type} `{!Platform Chat BunkUser}.

(** The cog, the [streams] collection and the chat platform. *)
Abbreviation St := (TwitchCog * (list db.FollowedStream * Chat))%type.

Definition self_ : M St TwitchCog := on_fst get.
Definition assign (f : TwitchCog -> TwitchCog) : M St unit := on_fst (modify f).
Definition bot_ {A} (op : M Chat A) : M St A := on_snd (on_snd op).
Definition database_streams {A} (op : list db.FollowedStream -> A * list db.FollowedStream)
  : M St A :=
  on_snd (on_fst (fun tbl => let '(a, tbl') := op tbl in (Returned a, tbl'))).

(** on event emission delete a message that is not a twitch cog command *)
Definition rm_msg (msg : Message) : M St unit :=
  let* self := self_ in
  if (channel_id (channel msg) =? channel_id streams)%Z then
    let* list_id := attr_id (msg_stream_list self) in
    if negb (id msg =? list_id)%Z then
      let* help_id := attr_id (msg_help self) in
      if negb (id msg =? help_id)%Z then bot_ (delete_message msg)
      else ret tt
    else ret tt
  else ret tt.

(** The status line of every resolved stream, in order. *)
Fixpoint stream_statuses (stream_ids : list twitch.User) : M St (list string) :=
  match stream_ids with
  | [] => ret []
  | stream :: rest =>
      let* strm := bot_ (get_stream_by_user (twitch.user_id stream)) in
      let status := match strm with
                    | Some s => twitch.url s
                    | None => "Not streaming"
                    end in
      let* statuses := stream_statuses rest in
      ret (status :: statuses)
  end.

(** helper fn to update current stream list *)
Definition update_stream_list : M St unit :=
  try_except
    (let* hour := bot_ datetime_now_hour in
     if (hour <=? 23)%Z && (16 <=? hour)%Z then
       let* all_streams := database_streams (fun tbl => (db.streams_all tbl, tbl)) in
       let stream_names := List.map db.name (sorted_by_name all_streams) in
       let* stream_ids := bot_ (translate_usernames_to_ids stream_names) in
       let* statuses := stream_statuses stream_ids in
       let embed :=
         {| title := "Currently Followed Streams";
            color := 1691450;
            fields := [ {| field_name := "Stream";
                           field_value := String.concat (String "010" EmptyString) stream_names;
                           inline := true |};
                        {| field_name := "Status";
                           field_value := String.concat (String "010" EmptyString) statuses;
                           inline := true |} ];
            thumbnail := TWITCH_ICON;
            footer_text := "type !stream <stream name> to add a stream to the list";
            footer_icon := TWITCH_ICON |} in
       let* self := self_ in
       let* _ :=
         if negb (truthy (msg_stream_list self)) then
           if init_check self then
             let* _ := assign (set_init_check false) in
             let* m := bot_ (say_to_channel streams None (Some embed)) in
             assign (set_msg_stream_list (Some m))
           else
             let* m := bot_ (say None (Some embed)) in
             assign (set_msg_stream_list (Some m))
         else
           let* m := bot_ (edit_message (msg_stream_list self) None (Some embed)) in
           assign (set_msg_stream_list (Some m)) in
       let h_text := "Type !refresh or !update to refresh the current stream list" in
       let* self := self_ in
       if negb (truthy (msg_help self)) then
         let* m := bot_ (say_to_channel streams (Some h_text) None) in
         assign (set_msg_help (Some m))
       else
         let* stamp := bot_ now in
         let* m := bot_ (edit_message (msg_help self)
                           (Some (h_text ++ " (last updated " ++ stamp ++ ")")) None) in
         assign (set_msg_help (Some m))
     else ret tt)
    (fun e => bot_ (handle_error e "streams")).

(** The [try] block of the [stream] command. *)
Definition stream_body (ctx : Context) : M St unit :=
  let* _ := bot_ (send_typing (channel (message ctx))) in
  let* self := self_ in
  let* m := bot_ (edit_message (msg_help self) (Some "Updating...") None) in
  let* _ := assign (set_msg_help (Some m)) in
  let params := get_cmd_params ctx in
  if (length params =? 0)%nat then raise (BunkException "Enter a stream name")
  else
    let* param := getitem params 0 in
    let param_split := split "/" param in
    let* sname := getitem param_split (length param_split - 1)%nat in
    let* stream := database_streams (fun tbl => (db.streams_get sname tbl, tbl)) in
    match stream with
    | Some _ =>
        let* self := self_ in
        let* m := bot_ (edit_message (msg_help self)
                    (Some "Type !refresh or !update to refresh the current stream list")
                    None) in
        let* _ := assign (set_msg_help (Some m)) in
        raise (BunkException
                 ("Stream '" ++ sname ++ "' has already been added to the database!"))
    | None =>
        let* stream_ids := bot_ (translate_usernames_to_ids [sname]) in
        if (length stream_ids =? 0)%nat then
          raise (BunkException ("Cannot find stream '" ++ sname ++ "'"))
        else
          let* _ := database_streams (fun tbl =>
                      (tt, db.streams_insert
                             {| db.name := sname;
                                db.added_by := discord.name (author (message ctx)) |}
                             tbl)) in
          let* first := getitem stream_ids 0 in
          let* strm := bot_ (get_stream_by_user (twitch.user_id first)) in
          let elsewhere :=
            negb (channel_id (channel (message ctx)) =? channel_id streams)%Z in
          let* _ :=
            match strm with
            | None =>
                if elsewhere then
                  let* _ := bot_ (say (Some ("Stream '" ++ sname
                               ++ "' has been added to the database, but is not currently streaming."))
                               None) in ret tt
                else ret tt
            | Some live =>
                if elsewhere then
                  let* _ := bot_ (say (Some ("Stream '" ++ sname
                               ++ "' has been added to the database and is now streaming: "
                               ++ twitch.url live)) None) in ret tt
                else ret tt
            end in
          update_stream_list
    end.

(** [stream] command: add a stream to the database. *)
Definition stream (ctx : Context) : M St unit :=
  try_except (stream_body ctx)
    (fun e =>
       match e with
       | BunkException message =>
           if negb (channel_id (channel (discord.message ctx)) =? channel_id streams)%Z
           then let* _ := bot_ (say (Some message) None) in ret tt
           else ret tt
       | e => bot_ (handle_error e "stream")
       end).

Context `{!Housekeeping Chat (M St unit)}.

(** list currently followed streams: the [streams] command (the name
    [streams] is the tracker channel's here). *)
Definition streams_command (ctx : Context) : M St unit :=
  let* _ := bot_ (send_typing (channel (message ctx))) in
  update_stream_list.

(** wire up the hourly event that will search for twitch streams *)
Definition wire_stream_listener : M St unit :=
  try_except
    (let* self := self_ in
     let* _ :=
       if init_check self
       then bot_ (bot_purge_from streams (rm_unwanted_messages_predicate self))
       else ret tt in
     let* _ := update_stream_list in
     bot_ (add_job update_stream_list "interval" 60))
    (fun e => bot_ (handle_error e "wire_stream_listener")).

End cog.

End twitch_cog.

(* ===================================================================== *)
(** * src/services/game_service.py                                        *)
(* ===================================================================== *)

Module game_service.

(** every so often, set the bot status: [pass] *)
Definition set_game {S} : M S unit := ret tt.

(** when a user has started to play a game: [pass] *)
Definition get_game {S Game} (game : Game) : M S unit := ret tt.

(** do an initial check of current streams: [pass] *)
Definition check_streams {S} : M S unit := ret tt.

End game_service.

(* ===================================================================== *)
(** * What a routine leaves as it is                                      *)
(* ===================================================================== *)

Module frame.

(** Whatever its outcome, [m] ends in a state that [R] relates to the
    state it started in. *)
Definition keeps {S A} (R : S -> S -> Prop) (m : M S A) : Prop :=
  forall s, R s (snd (m s)).

(** The engine as seen by every member but [name]: their windows and the
    hooks. *)
Definition same_for_others {DB Chat} (name : string)
    (s s' : rpg.RPG DB Chat * rpg.World DB Chat) : Prop :=
  (forall other, other <> name ->
     rpg.config (fst s') !! other = rpg.config (fst s) !! other)
  /\ rpg.on_user_level_up (fst s') = rpg.on_user_level_up (fst s)
  /\ rpg.other_attrs (fst s') = rpg.other_attrs (fst s).

(** The stream tracker between two states: the collection and the seen ids
    are the same, a status message that existed still exists, and the
    first-run flag has not come back. *)
Definition tracker_kept {Chat}
    (s s' : twitch_cog.TwitchCog * (list db.FollowedStream * Chat)) : Prop :=
  fst (snd s') = fst (snd s)
  /\ twitch_cog.current_stream_ids (fst s') = twitch_cog.current_stream_ids (fst s)
  /\ (truthy (twitch_cog.msg_stream_list (fst s)) = true ->
      truthy (twitch_cog.msg_stream_list (fst s')) = true)
  /\ (truthy (twitch_cog.msg_help (fst s)) = true ->
      truthy (twitch_cog.msg_help (fst s')) = true)
  /\ (twitch_cog.init_check (fst s) = false ->
      twitch_cog.init_check (fst s') = false).

End frame.

(* ===================================================================== *)
(** * A store and a platform to run the code on                           *)
(* ===================================================================== *)

Module spec_store.

(** The per-user progression table, keyed by the member's name. *)
Abbreviation Store := (gmap string db.UserDoc).

(** Modelled from the spec: the storage layer is not among the sources.
    "[get_user(member)] — fetch or lazily create a user progression record
    (xp=0, level=1) for the given identity." *)
Definition get_user (member : Member) (d : Store) : option db.UserDoc * Store :=
  match d !! discord.name member with
  | Some user => (Some user, d)
  | None =>
      let user := {| db.xp := 0; db.level := 1 |} in
      (Some user, <[discord.name member := user]> d)
  end.

(** Modelled from the spec: the record [get_user] answers with. *)
Definition fetch (member : Member) (d : Store) : db.UserDoc :=
  match d !! discord.name member with
  | Some user => user
  | None => {| db.xp := 0; db.level := 1 |}
  end.

(** Modelled from the spec: "[update_user_xp(member, new_xp_value)] —
    overwrite the stored xp value for a user, returning the updated
    record." *)
Definition update_user_xp (member : Member) (new_xp_value : Q) (d : Store)
  : db.UserDoc * Store :=
  let user := {| db.xp := new_xp_value; db.level := db.level (fetch member d) |} in
  (user, <[discord.name member := user]> d).

(** Modelled from the spec: the level a stored xp gives by "the formula":
    the highest level whose required xp the stored xp reaches, level 1
    when it reaches none.  The climb starts at level 1 and takes at most
    [fuel] steps. *)
Fixpoint climb (xp : Q) (fuel : nat) (level : Z) : Z :=
  match fuel with
  | O => level
  | S fuel =>
      if rpg.level_up xp (level + 1) then climb xp fuel (level + 1) else level
  end.

(** Modelled from the spec: a level requires more xp than its number, so
    as many steps as the xp has units reach the highest level. *)
Definition level_of_xp (xp : Q) : Z := climb xp (Z.to_nat (Qceiling xp)) 1.

(** Modelled from the spec: "[update_user_level(member)] — recompute and
    persist the user's level from its stored xp (see the formula),
    returning the updated record." *)
Definition update_user_level (member : Member) (d : Store) : db.UserDoc * Store :=
  let old := fetch member d in
  let user := {| db.xp := db.xp old; db.level := level_of_xp (db.xp old) |} in
  (user, <[discord.name member := user]> d).

#[global] Instance database : db.Database Store :=
  {| db.get_user := get_user;
     db.update_user_xp := update_user_xp;
     db.update_user_level := update_user_level |}.

End spec_store.

(** A chat platform that records every call made to it and returns; it
    refuses only to edit a message that does not exist.  It resolves every
    stream name and reports no stream as live. *)
Module recording.

Inductive Action : Type :=
| Typing (ch : TextChannel)
| SaidTo (ch : TextChannel) (text : option string) (embed : option Embed)
| Said (text : option string) (embed : option Embed)
| Edited (m : Message) (text : option string) (embed : option Embed)
| Deleted (m : Message)
| Reported (e : exn) (label : string)
| MessageDeleted (m : Message)
| ChannelDeleted (ch : TextChannel)
| ChannelCreated (kind : string) (user : Z).

Abbreviation Chat := (list Action).

Definition record (a : Action) : M Chat unit :=
  modify (fun log => (log ++ [a])%list).

Definition general_channel : TextChannel :=
  {| channel_id := 1; channel_name := "general" |}.
Definition streams_channel : TextChannel :=
  {| channel_id := 2; channel_name := "streams" |}.

Definition bunkbot : Member :=
  {| member_id := 0; discord.name := "bunkbot"; mention := "<@0>";
     status := "online"; bot := true |}.

Definition post (a : Action) (ch : TextChannel) (text : option string) : M Chat Message :=
  fun log =>
    (Returned {| id := 1000 + Z.of_nat (length log);
                 content := default EmptyString text; author := bunkbot; channel := ch |},
     (log ++ [a])%list).

Definition edit (m : option Message) (text : option string) (embed : option Embed)
  : M Chat Message :=
  match m with
  | Some m =>
      let* _ := record (Edited m text embed) in
      ret {| id := id m; content := default (content m) text;
             author := author m; channel := channel m |}
  | None => raise (AttributeError "channel")
  end.

#[global] Instance platform : Platform Chat Z :=
  {| general := general_channel;
     streams := streams_channel;
     send_typing := fun ch => record (Typing ch);
     say_to_channel := fun ch text embed => post (SaidTo ch text embed) ch text;
     say := fun text embed => post (Said text embed) general_channel text;
     edit_message := edit;
     delete_message := fun m => record (Deleted m);
     handle_error := fun e label => record (Reported e label);
     get_cmd_params := fun ctx =>
       List.tl (split " " (content (message ctx)));
     Message_delete := fun m => record (MessageDeleted m);
     TextChannel_delete := fun ch => record (ChannelDeleted ch);
     users_get_by_id := fun uid => ret uid;
     create_game_channel := fun kind user =>
       let* _ := record (ChannelCreated kind user) in
       ret (Some {| channel_id := 100 + user; channel_name := kind |});
     translate_usernames_to_ids := fun names =>
       ret (List.map (fun n => {| twitch.user_id := Z.of_nat (String.length n);
                                  twitch.display_name := n |}) names);
     get_stream_by_user := fun _ => ret None;
     datetime_now_hour := ret 20;
     now := ret "20:00" |}.

(** A game that remembers the moves it was sent. *)
#[global] Instance game : connectfour_cog.ConnectFourGame (list string) Chat Z :=
  {| connectfour_cog.new_game := fun _ _ => [];
     connectfour_cog.start := ret tt;
     connectfour_cog.update := fun message _ =>
       on_fst (modify (fun moves => (moves ++ [content message])%list)) |}.

#[global] Instance typing : ContextTyping Chat :=
  {| send_typing_ctx := fun ctx => record (Typing (channel (message ctx))) |}.

(** The same platform in the morning, at nine. *)
Definition morning : Platform Chat Z :=
  {| general := general_channel;
     streams := streams_channel;
     send_typing := @send_typing Chat Z platform;
     say_to_channel := @say_to_channel Chat Z platform;
     say := @say Chat Z platform;
     edit_message := edit;
     delete_message := @delete_message Chat Z platform;
     handle_error := @handle_error Chat Z platform;
     get_cmd_params := @get_cmd_params Chat Z platform;
     Message_delete := @Message_delete Chat Z platform;
     TextChannel_delete := @TextChannel_delete Chat Z platform;
     users_get_by_id := @users_get_by_id Chat Z platform;
     create_game_channel := @create_game_channel Chat Z platform;
     translate_usernames_to_ids := @translate_usernames_to_ids Chat Z platform;
     get_stream_by_user := @get_stream_by_user Chat Z platform;
     datetime_now_hour := ret 9;
     now := ret "09:00" |}.

(** The same platform with a streaming service that knows no name. *)
Definition unknown_names : Platform Chat Z :=
  {| general := general_channel;
     streams := streams_channel;
     send_typing := @send_typing Chat Z platform;
     say_to_channel := @say_to_channel Chat Z platform;
     say := @say Chat Z platform;
     edit_message := edit;
     delete_message := @delete_message Chat Z platform;
     handle_error := @handle_error Chat Z platform;
     get_cmd_params := @get_cmd_params Chat Z platform;
     Message_delete := @Message_delete Chat Z platform;
     TextChannel_delete := @TextChannel_delete Chat Z platform;
     users_get_by_id := @users_get_by_id Chat Z platform;
     create_game_channel := @create_game_channel Chat Z platform;
     translate_usernames_to_ids := fun _ => ret [];
     get_stream_by_user := @get_stream_by_user Chat Z platform;
     datetime_now_hour := @datetime_now_hour Chat Z platform;
     now := @now Chat Z platform |}.

(** A scheduler and a purge that do nothing, and a purge that fails. *)
Definition housekeeping {Job} : Housekeeping Chat Job :=
  {| bot_purge_from := fun _ _ => ret tt;
     add_job := fun _ _ _ => ret tt |}.

Definition failing_purge {Job} : Housekeeping Chat Job :=
  {| bot_purge_from := fun _ _ => raise (Exception "purge refused");
     add_job := fun _ _ _ => ret tt |}.

End recording.

(* ===================================================================== *)
(** * Concrete members, messages and worlds                               *)
(* ===================================================================== *)

Module sample.

Definition alice : Member :=
  {| member_id := 7; discord.name := "alice"; mention := "<@7>";
     status := "online"; bot := false |}.

(** A clock that reads 0 twice and then advances ten seconds per reading,
    up to fifty seconds. *)
Definition steady (k : nat) : Q :=
  inject_Z (10 * Z.of_nat (Nat.min (Nat.pred k) 5)).

(** A clock that starts at 100 seconds and advances one microsecond per
    reading. *)
Definition microseconds (k : nat) : Q :=
  (100 + inject_Z (Z.of_nat k) / 1000000)%Q.

(** A world that has seen no call yet. *)
Definition world (d : spec_store.Store) (clock : nat -> Q)
  : rpg.World spec_store.Store recording.Chat :=
  {| rpg.store := d; rpg.chat := []; rpg.clock := clock; rpg.reads := 0;
     rpg.trace := [] |}.

(** A store that holds one record, for alice. *)
Definition stored (xp : Q) (level : Z) : spec_store.Store :=
  {[ "alice" := {| db.xp := xp; db.level := level |} ]}.

(** The engine before any call. *)
Definition engine : rpg.RPG spec_store.Store recording.Chat := rpg.__init__.

Definition chatter : Message :=
  {| id := 7; content := "hello"; author := alice;
     channel := recording.streams_channel |}.

Definition cancel_message : Message :=
  {| id := 8; content := "CaNcEl"; author := alice;
     channel := recording.general_channel |}.

Definition move : Message :=
  {| id := 9; content := "3"; author := alice;
     channel := {| channel_id := 107; channel_name := "connect4-fugwenna" |} |}.

Definition stream_command : Context :=
  {| message := {| id := 10; content := "!stream https://twitch.tv/shroud";
                   author := alice; channel := recording.general_channel |} |}.

Definition roster : list db.FollowedStream :=
  [ {| db.name := "shroud"; db.added_by := "bob" |} ].

Definition listing : Message :=
  {| id := 1; content := EmptyString; author := recording.bunkbot;
     channel := recording.streams_channel |}.

Definition help : Message :=
  {| id := 2; content := "Type !refresh or !update to refresh the current stream list";
     author := recording.bunkbot; channel := recording.streams_channel |}.

(** The stream tracker once both status messages exist. *)
Definition tracker : twitch_cog.TwitchCog :=
  {| twitch_cog.current_stream_ids := [];
     twitch_cog.msg_stream_list := Some listing;
     twitch_cog.msg_help := Some help;
     twitch_cog.init_check := false |}.

Definition bob : Member :=
  {| member_id := 8; discord.name := "bob"; mention := "<@8>";
     status := "offline"; bot := false |}.

(** Another member who goes by the name alice. *)
Definition namesake : Member :=
  {| member_id := 9; discord.name := "alice"; mention := "<@9>";
     status := "online"; bot := false |}.

(** The engine holding one window, alice's, opened at time 0. *)
Definition engine_with (value : Q) : rpg.RPG spec_store.Store recording.Chat :=
  rpg.set_config {[ "alice" := {| rpg.value := value; rpg.last_update := 0 |} ]} engine.

(** The same engine with a level-up subscriber that fails. *)
Definition faulty_engine (value : Q) : rpg.RPG spec_store.Store recording.Chat :=
  {| rpg.config := rpg.config (engine_with value);
     rpg.on_user_level_up :=
       event_hook.iadd event_hook.new (fun _ => raise (Exception "subscriber failed"));
     rpg.other_attrs := ∅ |}.

(** A world whose clock has been read twice already. *)
Definition later_world (d : spec_store.Store)
  : rpg.World spec_store.Store recording.Chat :=
  {| rpg.store := d; rpg.chat := []; rpg.clock := steady; rpg.reads := 2;
     rpg.trace := [] |}.

(** The [stream] command without an argument. *)
Definition bare_stream_command : Context :=
  {| message := {| id := 11; content := "!stream";
                   author := alice; channel := recording.general_channel |} |}.

(** The [level] command, issued by alice. *)
Definition level_command : Context :=
  {| message := {| id := 12; content := "!level";
                   author := alice; channel := recording.general_channel |} |}.

End sample.

(* ===================================================================== *)
(** * The leveling formula                                                *)
(* ===================================================================== *)

Lemma Qlt_bool_iff (a b : Q) : rpg.Qlt_bool a b = true <-> (a < b)%Q.
Proof.
  unfold rpg.Qlt_bool. rewrite negb_true_iff. split.
  - intros H. apply Qnot_le_lt. intros Hle. apply Qle_bool_iff in Hle. congruence.
  - intros H. apply not_true_is_false. intros Hle. apply Qle_bool_iff in Hle. lra.
Qed.

(** An integer is already rounded. *)
Lemma round_half_even_Z (z : Z) (x : Q) :
  (x == inject_Z z)%Q -> rpg.round_half_even x = z.
Proof.
  intros Hx. unfold rpg.round_half_even.
  assert (Hf : Qfloor x = z) by (rewrite Hx; apply Qfloor_Z).
  rewrite Hf.
  assert (Hlt : rpg.Qlt_bool (x - inject_Z z) (1 # 2) = true).
  { apply Qlt_bool_iff. rewrite Hx. lra. }
  now rewrite Hlt.
Qed.

(* ===================================================================== *)
(** * Float arithmetic: rounding is monotone, and exact on floats        *)
(* ===================================================================== *)

Lemma Qlt_bool_false (a b : Q) : rpg.Qlt_bool a b = false <-> (b <= a)%Q.
Proof.
  unfold rpg.Qlt_bool. rewrite negb_false_iff. apply Qle_bool_iff.
Qed.

(** The rounded value is the floor or the next integer. *)
Lemma round_half_even_cases (x : Q) :
  (rpg.round_half_even x = Qfloor x /\ (x - inject_Z (Qfloor x) <= 1 # 2)%Q)
  \/ (rpg.round_half_even x = Qfloor x + 1 /\ (1 # 2 <= x - inject_Z (Qfloor x))%Q).
Proof.
  unfold rpg.round_half_even.
  destruct (rpg.Qlt_bool (x - inject_Z (Qfloor x)) (1 # 2)) eqn:H1.
  { left. apply Qlt_bool_iff in H1. split; [reflexivity | lra]. }
  apply Qlt_bool_false in H1.
  destruct (rpg.Qlt_bool (1 # 2) (x - inject_Z (Qfloor x))) eqn:H2.
  { right. split; [reflexivity | assumption]. }
  apply Qlt_bool_false in H2.
  destruct (Z.even (Qfloor x)); [left | right]; split; trivial.
Qed.

Lemma round_half_even_comp (x y : Q) :
  (x == y)%Q -> rpg.round_half_even x = rpg.round_half_even y.
Proof.
  intros H. unfold rpg.round_half_even.
  assert (Hf : Qfloor x = Qfloor y) by now rewrite H.
  rewrite Hf.
  assert (H1 : rpg.Qlt_bool (x - inject_Z (Qfloor y)) (1 # 2)
               = rpg.Qlt_bool (y - inject_Z (Qfloor y)) (1 # 2)).
  { unfold rpg.Qlt_bool. f_equal. apply eq_true_iff_eq. rewrite !Qle_bool_iff.
    now rewrite H. }
  assert (H2 : rpg.Qlt_bool (1 # 2) (x - inject_Z (Qfloor y))
               = rpg.Qlt_bool (1 # 2) (y - inject_Z (Qfloor y))).
  { unfold rpg.Qlt_bool. f_equal. apply eq_true_iff_eq. rewrite !Qle_bool_iff.
    now rewrite H. }
  now rewrite H1, H2.
Qed.

(** Rounding to the nearest integer is monotone. *)
Lemma round_half_even_le (x y : Q) :
  (x <= y)%Q -> rpg.round_half_even x <= rpg.round_half_even y.
Proof.
  intros Hxy.
  pose proof (Qfloor_resp_le _ _ Hxy) as Hf.
  pose proof (Qfloor_le x) as Hx1. pose proof (Qlt_floor x) as Hx2.
  pose proof (Qfloor_le y) as Hy1. pose proof (Qlt_floor y) as Hy2.
  destruct (Z.eq_dec (Qfloor x) (Qfloor y)) as [He | Hne].
  - unfold rpg.round_half_even. rewrite He.
    destruct (rpg.Qlt_bool (x - inject_Z (Qfloor y)) (1 # 2)) eqn:H1.
    { destruct (rpg.Qlt_bool (y - inject_Z (Qfloor y)) (1 # 2));
        [lia|]. destruct (rpg.Qlt_bool (1 # 2) (y - inject_Z (Qfloor y))); [lia|].
      destruct (Z.even (Qfloor y)); lia. }
    apply Qlt_bool_false in H1.
    assert (Hy : rpg.Qlt_bool (y - inject_Z (Qfloor y)) (1 # 2) = false).
    { apply Qlt_bool_false. lra. }
    rewrite Hy.
    destruct (rpg.Qlt_bool (1 # 2) (x - inject_Z (Qfloor y))) eqn:H2.
    { apply Qlt_bool_iff in H2.
      assert (Hy' : rpg.Qlt_bool (1 # 2) (y - inject_Z (Qfloor y)) = true).
      { apply Qlt_bool_iff. lra. }
      rewrite Hy'. lia. }
    destruct (rpg.Qlt_bool (1 # 2) (y - inject_Z (Qfloor y))); [|lia].
    destruct (Z.even (Qfloor y)); lia.
  - destruct (round_half_even_cases x) as [[Hx _] | [Hx _]];
      destruct (round_half_even_cases y) as [[Hy _] | [Hy _]]; lia.
Qed.

Lemma round_half_even_ge_Z (z : Z) (x : Q) :
  (inject_Z z <= x)%Q -> z <= rpg.round_half_even x.
Proof.
  intros H. pose proof (round_half_even_le _ _ H) as Hle.
  now rewrite (round_half_even_Z z (inject_Z z)) in Hle by reflexivity.
Qed.

Lemma round_half_even_le_Z (z : Z) (x : Q) :
  (x <= inject_Z z)%Q -> rpg.round_half_even x <= z.
Proof.
  intros H. pose proof (round_half_even_le _ _ H) as Hle.
  now rewrite (round_half_even_Z z (inject_Z z)) in Hle by reflexivity.
Qed.

Lemma inject_Z_pow2_pos (k : Z) : 0 <= k -> (0 < inject_Z (2 ^ k))%Q.
Proof.
  intros Hk. change 0%Q with (inject_Z 0). rewrite <- Zlt_Qlt.
  apply Z.pow_pos_nonneg; lia.
Qed.

Lemma binary64_pos_comp (x y : Q) :
  (x == y)%Q -> rpg.binary64_pos x = rpg.binary64_pos y.
Proof.
  intros H. unfold rpg.binary64_pos.
  assert (Hf : Qfloor (x * inject_Z (2 ^ 1074)) = Qfloor (y * inject_Z (2 ^ 1074)))
    by now rewrite H.
  rewrite Hf.
  rewrite (round_half_even_comp
             (x * inject_Z (2 ^ 1074)
              / inject_Z (2 ^ Z.max (Z.log2 (Qfloor (y * inject_Z (2 ^ 1074))) - 52) 0))
             (y * inject_Z (2 ^ 1074)
              / inject_Z (2 ^ Z.max (Z.log2 (Qfloor (y * inject_Z (2 ^ 1074))) - 52) 0)))
    by now rewrite H.
  reflexivity.
Qed.

Lemma binary64_comp (x y : Q) : (x == y)%Q -> rpg.binary64 x = rpg.binary64 y.
Proof.
  intros H. unfold rpg.binary64. apply Qred_complete.
  assert (Hb : Qle_bool 0 x = Qle_bool 0 y).
  { apply eq_true_iff_eq. rewrite !Qle_bool_iff. now rewrite H. }
  rewrite Hb. destruct (Qle_bool 0 y).
  - now rewrite (binary64_pos_comp x y H).
  - rewrite (binary64_pos_comp (- x) (- y)) by now rewrite H. reflexivity.
Qed.

(** The scaled mantissa and its exponent, for the proofs. *)
Lemma binary64_pos_unfold (x : Q) :
  rpg.binary64_pos x
  = (inject_Z (rpg.round_half_even
                 (x * inject_Z (2 ^ 1074)
                  / inject_Z (2 ^ Z.max (Z.log2 (Qfloor (x * inject_Z (2 ^ 1074))) - 52) 0))
               * 2 ^ Z.max (Z.log2 (Qfloor (x * inject_Z (2 ^ 1074))) - 52) 0)
     / inject_Z (2 ^ 1074))%Q.
Proof. reflexivity. Qed.

Lemma inject_Z_div_le (a b : Z) :
  a <= b -> (inject_Z a / inject_Z (2 ^ 1074) <= inject_Z b / inject_Z (2 ^ 1074))%Q.
Proof.
  intros H. unfold Qdiv. apply Qmult_le_compat_r.
  - now rewrite <- Zle_Qle.
  - apply Qinv_le_0_compat. apply Qlt_le_weak. apply inject_Z_pow2_pos. lia.
Qed.

Lemma binary64_pos_nonneg (x : Q) : (0 <= x)%Q -> (0 <= rpg.binary64_pos x)%Q.
Proof.
  intros Hx. rewrite binary64_pos_unfold.
  set (s := (x * inject_Z (2 ^ 1074))%Q).
  set (k := Z.max (Z.log2 (Qfloor s) - 52) 0).
  assert (Hk : 0 <= k) by (unfold k; lia).
  pose proof (inject_Z_pow2_pos k Hk) as Hp.
  pose proof (inject_Z_pow2_pos 1074 ltac:(lia)) as HP.
  assert (Hs : (0 <= s)%Q).
  { unfold s. apply Qmult_le_0_compat; [assumption | now apply Qlt_le_weak]. }
  assert (Hm : 0 <= rpg.round_half_even (s / inject_Z (2 ^ k))).
  { apply round_half_even_ge_Z. apply Qle_shift_div_l; [assumption|].
    change (inject_Z 0) with 0%Q. lra. }
  apply Qle_trans with (inject_Z 0 / inject_Z (2 ^ 1074))%Q;
    [unfold Qdiv; rewrite Qmult_0_l; apply Qle_refl|].
  apply inject_Z_div_le.
  apply Z.mul_nonneg_nonneg; [assumption|]. apply Z.pow_nonneg. lia.
Qed.

(** The scaled value lies below the top of its binade. *)
Lemma scaled_below (s : Q) :
  (0 <= s)%Q ->
  (s <= inject_Z (2 ^ (Z.max (Z.log2 (Qfloor s) - 52) 0 + 53)))%Q.
Proof.
  intros Hs.
  pose proof (Qlt_floor s) as Hlt.
  assert (Hf0 : 0 <= Qfloor s).
  { change 0 with (Qfloor (inject_Z 0)) at 1. rewrite <- (Qfloor_Z 0) at 1.
    now apply Qfloor_resp_le. }
  assert (Hfl : Qfloor s + 1 <= 2 ^ (Z.max (Z.log2 (Qfloor s) - 52) 0 + 53)).
  { destruct (Z.eq_dec (Qfloor s) 0) as [He | Hne].
    - rewrite He. cbn [Z.log2]. 
      assert (0 < 2 ^ (Z.max (Z.log2 0 - 52) 0 + 53)) by (apply Z.pow_pos_nonneg; lia).
      lia.
    - pose proof (Z.log2_spec (Qfloor s) ltac:(lia)) as [_ Hup].
      assert (2 ^ Z.succ (Z.log2 (Qfloor s))
              <= 2 ^ (Z.max (Z.log2 (Qfloor s) - 52) 0 + 53)).
      { apply Z.pow_le_mono_r; lia. }
      lia. }
  apply Qlt_le_weak. eapply Qlt_le_trans; [exact Hlt|].
  now rewrite <- Zle_Qle.
Qed.

(** Above the lowest binade the scaled value reaches the bottom of its
    binade. *)
Lemma scaled_above (s : Q) :
  0 < Z.max (Z.log2 (Qfloor s) - 52) 0 ->
  (inject_Z (2 ^ (Z.max (Z.log2 (Qfloor s) - 52) 0 + 52)) <= s)%Q.
Proof.
  intros Hk.
  assert (Hl : 52 < Z.log2 (Qfloor s)) by lia.
  assert (Hf : 0 < Qfloor s).
  { destruct (Z.lt_ge_cases 0 (Qfloor s)) as [H | H]; [assumption|].
    rewrite (Z.log2_nonpos _ H) in Hl. lia. }
  pose proof (Z.log2_spec (Qfloor s) Hf) as [Hlow _].
  replace (Z.max (Z.log2 (Qfloor s) - 52) 0 + 52) with (Z.log2 (Qfloor s)) by lia.
  eapply Qle_trans; [|apply Qfloor_le]. now rewrite <- Zle_Qle.
Qed.

(** Rounding to binary64 is monotone. *)
Lemma binary64_pos_le (x y : Q) :
  (0 <= x)%Q -> (x <= y)%Q -> (rpg.binary64_pos x <= rpg.binary64_pos y)%Q.
Proof.
  intros Hx Hxy. rewrite !binary64_pos_unfold.
  pose proof (inject_Z_pow2_pos 1074 ltac:(lia)) as HP.
  set (sx := (x * inject_Z (2 ^ 1074))%Q).
  set (sy := (y * inject_Z (2 ^ 1074))%Q).
  assert (Hsx : (0 <= sx)%Q).
  { unfold sx. apply Qmult_le_0_compat; [assumption | now apply Qlt_le_weak]. }
  assert (Hs : (sx <= sy)%Q).
  { unfold sx, sy. apply Qmult_le_compat_r; [assumption | now apply Qlt_le_weak]. }
  assert (Hsy : (0 <= sy)%Q) by lra.
  pose proof (scaled_below sx Hsx) as Hbx.
  pose proof (scaled_above sy) as Hay.
  pose proof (Z.log2_le_mono _ _ (Qfloor_resp_le _ _ Hs)) as Hl.
  set (kx := Z.max (Z.log2 (Qfloor sx) - 52) 0) in *.
  set (ky := Z.max (Z.log2 (Qfloor sy) - 52) 0) in *.
  assert (Hkx : 0 <= kx) by (unfold kx; lia).
  assert (Hky : 0 <= ky) by (unfold ky; lia).
  assert (Hk : kx <= ky) by (unfold kx, ky; lia).
  pose proof (inject_Z_pow2_pos kx Hkx) as Hpx.
  pose proof (inject_Z_pow2_pos ky Hky) as Hpy.
  apply inject_Z_div_le.
  destruct (Z.eq_dec kx ky) as [He | Hne].
  - rewrite He. apply Z.mul_le_mono_nonneg_r; [apply Z.pow_nonneg; lia|].
    apply round_half_even_le. unfold Qdiv. apply Qmult_le_compat_r; [assumption|].
    apply Qinv_le_0_compat. now apply Qlt_le_weak.
  - assert (Hmx : rpg.round_half_even (sx / inject_Z (2 ^ kx)) <= 2 ^ 53).
    { apply round_half_even_le_Z. apply Qle_shift_div_r; [assumption|].
      rewrite <- inject_Z_mult, <- Z.pow_add_r by lia.
      now rewrite (Z.add_comm 53 kx). }
    assert (Hmy : 2 ^ 52 <= rpg.round_half_even (sy / inject_Z (2 ^ ky))).
    { apply round_half_even_ge_Z. apply Qle_shift_div_l; [assumption|].
      rewrite <- inject_Z_mult, <- Z.pow_add_r by lia.
      rewrite (Z.add_comm 52 ky). apply Hay. lia. }
    assert (H2x : 0 < 2 ^ kx) by (apply Z.pow_pos_nonneg; lia).
    assert (H2y : 0 < 2 ^ ky) by (apply Z.pow_pos_nonneg; lia).
    transitivity (2 ^ 53 * 2 ^ kx).
    { apply Z.mul_le_mono_nonneg_r; lia. }
    transitivity (2 ^ 52 * 2 ^ ky).
    { rewrite <- !Z.pow_add_r by lia. apply Z.pow_le_mono_r; lia. }
    apply Z.mul_le_mono_nonneg_r; lia.
Qed.

Lemma binary64_le (x y : Q) : (x <= y)%Q -> (rpg.binary64 x <= rpg.binary64 y)%Q.
Proof.
  intros Hxy. unfold rpg.binary64. rewrite !Qred_correct.
  destruct (Qle_bool 0 x) eqn:Hx; destruct (Qle_bool 0 y) eqn:Hy.
  - apply Qle_bool_iff in Hx. now apply binary64_pos_le.
  - apply Qle_bool_iff in Hx.
    assert (Qle_bool 0 y = true) by (apply Qle_bool_iff; lra). congruence.
  - apply Qle_bool_iff in Hy.
    assert (Hnx : (0 <= - x)%Q).
    { destruct (Qlt_le_dec x 0) as [H | H]; [lra|].
      apply Qle_bool_iff in H. congruence. }
    pose proof (binary64_pos_nonneg _ Hnx). pose proof (binary64_pos_nonneg _ Hy). lra.
  - assert (Hny : (0 <= - y)%Q).
    { destruct (Qlt_le_dec y 0) as [H | H]; [lra|].
      apply Qle_bool_iff in H. congruence. }
    assert (Hle : (- y <= - x)%Q) by lra.
    pose proof (binary64_pos_le _ _ Hny Hle). lra.
Qed.

(** Half of an integer below [2^53] is a binary64 number. *)
Lemma binary64_half_exact (z : Z) :
  0 <= z < 2 ^ 53 -> (rpg.binary64 (inject_Z z / 2) == inject_Z z / 2)%Q.
Proof.
  intros [Hz0 Hz]. unfold rpg.binary64. rewrite Qred_correct.
  assert (Hnn : (0 <= inject_Z z / 2)%Q).
  { apply Qle_shift_div_l; [reflexivity|]. rewrite Qmult_0_l.
    change 0%Q with (inject_Z 0). now rewrite <- Zle_Qle. }
  apply Qle_bool_iff in Hnn. rewrite Hnn. rewrite binary64_pos_unfold.
  pose proof (inject_Z_pow2_pos 1073 ltac:(lia)) as HP.
  assert (H74 : (inject_Z (2 ^ 1074) == 2 * inject_Z (2 ^ 1073))%Q).
  { replace 1074 with (Z.succ 1073) by lia. rewrite Z.pow_succ_r by lia.
    now rewrite inject_Z_mult. }
  assert (Hs : (inject_Z z / 2 * inject_Z (2 ^ 1074) == inject_Z (z * 2 ^ 1073))%Q).
  { rewrite H74, inject_Z_mult. field. }
  assert (Hf : Qfloor (inject_Z z / 2 * inject_Z (2 ^ 1074)) = z * 2 ^ 1073).
  { rewrite Hs. apply Qfloor_Z. }
  rewrite Hf.
  set (k := Z.max (Z.log2 (z * 2 ^ 1073) - 52) 0).
  assert (Hk : 0 <= k <= 1073).
  { unfold k. destruct (Z.eq_dec z 0) as [-> | Hne].
    - rewrite Z.mul_0_l. cbn [Z.log2]. lia.
    - rewrite Z.log2_mul_pow2 by lia.
      assert (Z.log2 z < 53) by (apply Z.log2_lt_pow2; lia).
      pose proof (Z.log2_nonneg z). lia. }
  pose proof (inject_Z_pow2_pos k ltac:(lia)) as Hpk.
  assert (Hsplit : 2 ^ 1073 = 2 ^ (1073 - k) * 2 ^ k).
  { rewrite <- Z.pow_add_r by lia. f_equal. lia. }
  rewrite (round_half_even_Z (z * 2 ^ (1073 - k))).
  - rewrite <- Z.mul_assoc, <- Hsplit. rewrite H74, inject_Z_mult. field. lra.
  - rewrite Hs, Hsplit, Z.mul_assoc, (inject_Z_mult _ (2 ^ k)). field. lra.
Qed.

(** An integer below [2^52] is a binary64 number. *)
Lemma binary64_Z_exact (z : Z) :
  0 <= z < 2 ^ 52 -> (rpg.binary64 (inject_Z z) == inject_Z z)%Q.
Proof.
  intros Hz.
  assert (He : (inject_Z z == inject_Z (2 * z) / 2)%Q)
    by (rewrite inject_Z_mult; field).
  rewrite (binary64_comp _ _ He). rewrite binary64_half_exact; [now symmetry|].
  change (2 ^ 53) with (2 * 2 ^ 52). lia.
Qed.

(* ===================================================================== *)
(** * The leveling formula: where the evaluation is exact                 *)
(* ===================================================================== *)

(** Half of an integer has at most one decimal digit: rounding it to two
    digits changes nothing. *)
Lemma round_half (L : Z) : (rpg.round (inject_Z L / 2) 2 == inject_Z L / 2)%Q.
Proof.
  unfold rpg.round. change (10 ^ 2) with 100.
  rewrite (round_half_even_Z (50 * L)); rewrite inject_Z_mult; field.
Qed.

Lemma round_comp (x y : Q) (n : Z) :
  (x == y)%Q -> (rpg.round x n == rpg.round y n)%Q.
Proof.
  intros H. unfold rpg.round.
  rewrite (round_half_even_comp (x * inject_Z (10 ^ n)) (y * inject_Z (10 ^ n)))
    by now rewrite H.
  reflexivity.
Qed.

(** Rounding to two decimal digits is monotone. *)
Lemma round_le (x y : Q) : (x <= y)%Q -> (rpg.round x 2 <= rpg.round y 2)%Q.
Proof.
  intros H. unfold rpg.round. change (10 ^ 2) with 100.
  unfold Qdiv. apply Qmult_le_compat_r; [|discriminate].
  rewrite <- Zle_Qle. apply round_half_even_le.
  apply Qmult_le_compat_r; [assumption | discriminate].
Qed.

Lemma float_of_comp (x y : Q) : (x == y)%Q -> rpg.float_of x = rpg.float_of y.
Proof. intros H. unfold rpg.float_of. now rewrite (binary64_comp x y H). Qed.

(** Half of an integer below [2^53] converts to a float. *)
Lemma float_of_half (z : Z) :
  0 <= z < 2 ^ 53 ->
  rpg.float_of (inject_Z z / 2) = Returned (rpg.binary64 (inject_Z z / 2)).
Proof.
  intros Hz. pose proof (binary64_half_exact z Hz) as He.
  unfold rpg.float_of.
  assert (Hz0 : (0 <= inject_Z z)%Q)
    by (change 0%Q with (inject_Z 0); rewrite <- Zle_Qle; lia).
  assert (Hzlt : (inject_Z z < inject_Z (2 ^ 1024))%Q).
  { rewrite <- Zlt_Qlt. apply Z.lt_le_trans with (2 ^ 53); [lia|].
    apply Z.pow_le_mono_r; lia. }
  assert (Hsmall : Qle_bool (inject_Z (2 ^ 1024))
                     (Qabs (rpg.binary64 (inject_Z z / 2))) = false).
  { apply not_true_is_false. intros Hle. apply Qle_bool_iff in Hle.
    assert (Hb : (0 <= rpg.binary64 (inject_Z z / 2))%Q).
    { rewrite He. apply Qle_shift_div_l; [reflexivity | lra]. }
    pose proof (Qabs_pos _ Hb) as Ha.
    assert (Hhalf : (inject_Z z / 2 <= inject_Z z)%Q).
    { apply Qle_shift_div_r; [reflexivity | lra]. }
    rewrite Ha, He in Hle. lra. }
  now rewrite Hsmall.
Qed.

(** When the evaluation returns, it returns the float of [calc_req_xp]. *)
Lemma calc_req_xp_checked_value (L : Z) (q : Q) :
  rpg.calc_req_xp_checked L = Returned q -> q = rpg.calc_req_xp L.
Proof.
  unfold rpg.calc_req_xp_checked, rpg.calc_req_xp, rpg.float_of.
  destruct (Qle_bool _ (Qabs (rpg.binary64 (inject_Z L / 2)))); [discriminate|].
  destruct (Qle_bool _ (Qabs (rpg.binary64 (inject_Z _)))); [discriminate|].
  now intros [= <-].
Qed.

(** Up to level 30011996 every step of the evaluation is exact: the
    evaluation returns, and the float is the value of the expression. *)
Lemma calc_req_xp_exact (L : Z) :
  0 <= L <= 30011996 ->
  rpg.calc_req_xp_checked L = Returned (rpg.calc_req_xp L)
  /\ (rpg.calc_req_xp L == inject_Z (10 * L * L - 9 * L) / 2)%Q.
Proof.
  intros HL.
  assert (Hsq : 0 <= L * L <= 30011996 * 30011996) by nia.
  assert (HLL : L <= L * L \/ L = 0) by nia.
  assert (Hhalf : rpg.float_of (inject_Z L / 2)
                  = Returned (rpg.binary64 (inject_Z L / 2)))
    by (apply float_of_half; lia).
  assert (Ehalf : (rpg.binary64 (inject_Z L / 2) == inject_Z L / 2)%Q)
    by (apply binary64_half_exact; lia).
  assert (Ei : (inject_Z (5 * L * L - 5 * L)
                == inject_Z (2 * (5 * L * L - 5 * L)) / 2)%Q).
  { rewrite (inject_Z_mult 2).
    generalize (inject_Z (5 * L * L - 5 * L)). intros x. field. }
  assert (Hf : rpg.float_of (inject_Z (5 * L * L - 5 * L))
               = Returned (rpg.binary64 (inject_Z (5 * L * L - 5 * L)))).
  { rewrite (float_of_comp _ _ Ei), (binary64_comp _ _ Ei).
    apply float_of_half. lia. }
  assert (Ef : (rpg.binary64 (inject_Z (5 * L * L - 5 * L))
                == inject_Z (5 * L * L - 5 * L))%Q).
  { rewrite (binary64_comp _ _ Ei), binary64_half_exact by lia.
    symmetry. exact Ei. }
  split.
  { unfold rpg.calc_req_xp_checked, rpg.calc_req_xp, rpg.XP_CONST.
    now rewrite Hhalf, Hf. }
  assert (Hr : (rpg.binary64 (rpg.round (rpg.binary64 (inject_Z L / 2)) 2)
                == inject_Z L / 2)%Q).
  { rewrite (binary64_comp _ (inject_Z L / 2)); [exact Ehalf|].
    rewrite (round_comp _ _ 2 Ehalf). apply round_half. }
  unfold rpg.calc_req_xp, rpg.XP_CONST, rpg.fadd.
  rewrite (binary64_comp _ (inject_Z (10 * L * L - 9 * L) / 2)).
  - apply binary64_half_exact. lia.
  - rewrite Hr, Ef. unfold Z.sub.
    repeat (rewrite ?inject_Z_plus, ?inject_Z_opp, ?inject_Z_mult). field.
Qed.

(** C6: for every level [L] from 0 to 30011996, the evaluation of
    [calc_req_xp L] returns, and what it returns is exactly
    [5*L*L - 5*L + round(L/2, 2)], where the rounding leaves [L/2] as it
    is; it returns 0.5 at level 1, 11.0 at level 2 and 455.0 at level
    10. *)
Theorem calc_req_xp_formula (L : Z) :
  0 <= L <= 30011996 ->
  rpg.calc_req_xp_checked L = Returned (rpg.calc_req_xp L)
  /\ (rpg.calc_req_xp L
      == inject_Z (5 * L * L - 5 * L) + rpg.round (inject_Z L / 2) 2)%Q
  /\ (rpg.calc_req_xp L == inject_Z (5 * L * L - 5 * L) + inject_Z L / 2)%Q
  /\ rpg.calc_req_xp_checked 1 = Returned (1 # 2)
  /\ rpg.calc_req_xp_checked 2 = Returned 11%Q
  /\ rpg.calc_req_xp_checked 10 = Returned 455%Q.
Proof.
  intros HL. destruct (calc_req_xp_exact L HL) as [Hret Eq].
  split; [exact Hret|].
  assert (Esum : (inject_Z (10 * L * L - 9 * L) / 2
                  == inject_Z (5 * L * L - 5 * L) + inject_Z L / 2)%Q).
  { unfold Z.sub.
    repeat (rewrite ?inject_Z_plus, ?inject_Z_opp, ?inject_Z_mult). field. }
  split; [now rewrite Eq, round_half|]. split; [now rewrite Eq|].
  repeat split; vm_compute; reflexivity.
Qed.

Lemma calc_req_xp_formula_witness :
  rpg.calc_req_xp_checked 3 = Returned (rpg.calc_req_xp 3)
  /\ (rpg.calc_req_xp 3
      == inject_Z (5 * 3 * 3 - 5 * 3) + rpg.round (inject_Z 3 / 2) 2)%Q
  /\ (rpg.calc_req_xp 3 == inject_Z (5 * 3 * 3 - 5 * 3) + inject_Z 3 / 2)%Q
  /\ rpg.calc_req_xp_checked 1 = Returned (1 # 2)
  /\ rpg.calc_req_xp_checked 2 = Returned 11%Q
  /\ rpg.calc_req_xp_checked 10 = Returned 455%Q.
Proof. apply (calc_req_xp_formula 3). lia. Defined.

(** C6, as stated for every level, fails: at level 30011997 the value of
    the expression, 4503599684586058.5, is not a float, and the evaluation
    returns 4503599684586058. *)
Lemma calc_req_xp_past_exact_range :
  rpg.calc_req_xp_checked 30011997 = Returned 4503599684586058%Q
  /\ (inject_Z (5 * 30011997 * 30011997 - 5 * 30011997)
      + rpg.round (inject_Z 30011997 / 2) 2 == 9007199369172117 # 2)%Q
  /\ Qeq_bool 4503599684586058 (9007199369172117 # 2) = false.
Proof. repeat split; vm_compute; reflexivity. Qed.

(** Far beyond that range the conversion of the integer to a float is out
    of range, and for a still larger level so is the division: the
    evaluation raises. *)
Lemma calc_req_xp_out_of_range :
  rpg.calc_req_xp_checked (10 ^ 200) = Raised OverflowError
  /\ rpg.calc_req_xp_checked (10 ^ 400) = Raised OverflowError.
Proof. split; vm_compute; reflexivity. Qed.

(** [level_up] compares with the required xp. *)
Lemma level_up_iff (xp : Q) (L : Z) :
  rpg.level_up xp L = true <-> (rpg.calc_req_xp L <= xp)%Q.
Proof. unfold rpg.level_up. apply Qle_bool_iff. Qed.

(* ===================================================================== *)
(** * The activity window                                                 *)
(* ===================================================================== *)

Lemma within_minute (t t0 : Q) :
  (t - t0 <= 60)%Q -> Qle_bool ((t - t0) / 60) (inject_Z rpg.TIMER_MINUTES) = true.
Proof.
  intros H. apply Qle_bool_iff. unfold rpg.TIMER_MINUTES.
  apply Qle_shift_div_r; [reflexivity|]. change (inject_Z 1) with 1%Q. lra.
Qed.

Section window_facts.
Context {DB Chat : Type} `{!db.Database DB}.

Lemma set_config_id (self : rpg.RPG DB Chat) :
  rpg.set_config (rpg.config self) self = self.
Proof. now destruct self. Qed.

(** One call for a member whose window exists and is not older than a
    minute: the value is added when the clock has advanced and the
    accumulator is below the cap; nothing else changes. *)
Lemma update_user_xp_existing (member : Member) (value : Q)
    (self : rpg.RPG DB Chat) (w : rpg.World DB Chat) (user : rpg.ActivityWindow) :
  rpg.config self !! discord.name member = Some user ->
  Qle_bool ((rpg.clock w (rpg.reads w) - rpg.last_update user) / 60)
           (inject_Z rpg.TIMER_MINUTES) = true ->
  rpg.update_user_xp member value false (self, w)
  = (Returned tt,
     (rpg.set_config
        (<[discord.name member :=
             if rpg.Qlt_bool 0 (rpg.clock w (rpg.reads w) - rpg.last_update user)
                && rpg.Qlt_bool (rpg.value user) (inject_Z rpg.UPDATE_CAP)
             then {| rpg.value := rpg.fadd (rpg.value user) value;
                     rpg.last_update := rpg.last_update user |}
             else user]> (rpg.config self)) self,
      rpg.tick w)).
Proof.
  intros Hget Hwin.
  unfold rpg.update_user_xp, bind, try_except, rpg.getitem_config, on_snd, rpg.time_time.
  cbn [fst snd]. rewrite Hget. cbn [fst snd orb negb andb].
  rewrite Hwin.
  destruct (rpg.Qlt_bool 0 _) eqn:Hpos; cbn [andb].
  - destruct (rpg.Qlt_bool (rpg.value user) _) eqn:Hcap; cbn.
    + reflexivity.
    + unfold ret. rewrite insert_id by assumption. now rewrite set_config_id.
  - unfold ret. rewrite insert_id by assumption. now rewrite set_config_id.
Qed.

(** The first call for a member: the window is created with the value and
    the first clock reading; the value is added once more when the second
    reading is later than the first and the value is below the cap. *)
Lemma update_user_xp_fresh (member : Member) (value : Q)
    (self : rpg.RPG DB Chat) (w : rpg.World DB Chat) :
  rpg.config self !! discord.name member = None ->
  Qle_bool ((rpg.clock w (S (rpg.reads w)) - rpg.clock w (rpg.reads w)) / 60)
           (inject_Z rpg.TIMER_MINUTES) = true ->
  rpg.update_user_xp member value false (self, w)
  = (Returned tt,
     (rpg.set_config
        (<[discord.name member :=
             if rpg.Qlt_bool 0 (rpg.clock w (S (rpg.reads w)) - rpg.clock w (rpg.reads w))
                && rpg.Qlt_bool value (inject_Z rpg.UPDATE_CAP)
             then {| rpg.value := rpg.fadd value value;
                     rpg.last_update := rpg.clock w (rpg.reads w) |}
             else {| rpg.value := value;
                     rpg.last_update := rpg.clock w (rpg.reads w) |}]>
           (rpg.config self)) self,
      rpg.tick (rpg.tick w))).
Proof.
  intros Hget Hwin.
  unfold rpg.update_user_xp, bind, try_except, rpg.getitem_config, on_snd,
    rpg.time_time, rpg.setitem_config.
  cbn [fst snd]. rewrite Hget.
  cbn [fst snd rpg.config rpg.clock rpg.reads rpg.set_config rpg.tick].
  rewrite lookup_insert_eq.
  cbn [fst snd orb negb andb rpg.last_update rpg.value rpg.config rpg.clock
       rpg.reads rpg.set_config rpg.tick].
  rewrite Hwin.
  destruct (rpg.Qlt_bool 0 _) eqn:Hpos; cbn [andb].
  - destruct (rpg.Qlt_bool value _) eqn:Hcap; cbn.
    + unfold rpg.set_config; cbn. now rewrite insert_insert_eq.
    + reflexivity.
  - reflexivity.
Qed.

(** A first call at one instant of the clock leaves exactly the value in
    the window, stamped with that instant, and touches neither the store
    nor the trace. *)
Lemma update_user_xp_fresh_same_instant (member : Member) (value : Q)
    (self : rpg.RPG DB Chat) (w : rpg.World DB Chat) :
  rpg.config self !! discord.name member = None ->
  rpg.clock w (S (rpg.reads w)) = rpg.clock w (rpg.reads w) ->
  rpg.update_user_xp member value false (self, w)
  = (Returned tt,
     (rpg.set_config
        (<[discord.name member :=
             {| rpg.value := value; rpg.last_update := rpg.clock w (rpg.reads w) |}]>
           (rpg.config self)) self,
      rpg.tick (rpg.tick w))).
Proof.
  intros Hget Hsame. rewrite update_user_xp_fresh; [|assumption|].
  - rewrite Hsame.
    assert (H0 : rpg.Qlt_bool 0 (rpg.clock w (rpg.reads w) - rpg.clock w (rpg.reads w)) = false).
    { apply not_true_is_false. intros Hlt. apply Qlt_bool_iff in Hlt. lra. }
    now rewrite H0.
  - rewrite Hsame. apply within_minute. lra.
Qed.



End window_facts.

(** The bound is reached: the float below 60 plus 5 is 65, the float sum
    of 60 and 5, and 59.5 plus [2^53] is the float sum of 60 and [2^53]. *)
Lemma fadd_reaches_bound :
  rpg.binary64 (60 - 1 / inject_Z (2 ^ 47)) = Qred (60 - 1 / inject_Z (2 ^ 47))
  /\ rpg.fadd (60 - 1 / inject_Z (2 ^ 47)) 5 = rpg.fadd 60 5
  /\ rpg.fadd (119 # 2) (inject_Z (2 ^ 53)) = rpg.fadd 60 (inject_Z (2 ^ 53)).
Proof. repeat split; vm_compute; reflexivity. Qed.

Lemma steady_within_minute (k : nat) : (sample.steady k - 0 <= 60)%Q.
Proof.
  unfold sample.steady, Qminus, Qle. cbn. lia.
Qed.



(** C5 at its failing input: the first call for alice with value 5, the
    clock advancing a microsecond between its two readings, leaves 10 in
    the new window; no storage call is made. *)
Theorem update_user_xp_fresh_counts_twice :
  let '(r, (self, w)) :=
    rpg.update_user_xp sample.alice 5 false
      (sample.engine, sample.world ∅ sample.microseconds) in
  r = Returned tt
  /\ rpg.config self !! "alice"
     = Some {| rpg.value := 10; rpg.last_update := sample.microseconds 0 |}
  /\ rpg.trace w = [] /\ rpg.store w = ∅.
Proof. vm_compute. repeat split; reflexivity. Qed.

(* ===================================================================== *)
(** * Synchronising a member on a presence change                         *)
(* ===================================================================== *)

Section sync_facts.
Context {DB Chat : Type} `{!db.Database DB}.

(** A member who is not online: the window, if any, is reconciled to the
    store (or the record is fetched), and that is all: no level is written
    and the hook is not fired. *)
Lemma sync_user_xp_not_online (member : Member)
    (self : rpg.RPG DB Chat) (w : rpg.World DB Chat) :
  String.eqb (status member) "online" = false ->
  exists e d,
    rpg.sync_user_xp member (self, w) = (Returned tt, (self, rpg.record e d w))
    /\ (e = rpg.StorageGetUser member
        \/ exists v, e = rpg.StorageUpdateUserXp member v).
Proof.
  intros Hoff.
  unfold rpg.sync_user_xp, bind, try_except, rpg.getitem_config, on_snd, rpg.storage, ret.
  cbn [fst snd].
  destruct (rpg.config self !! discord.name member) as [user|]; cbn [fst snd].
  - destruct (db.update_user_xp member (rpg.value user) (rpg.store w)) as [new_user d].
    cbn [fst snd]. rewrite Hoff. cbn [andb].
    exists (rpg.StorageUpdateUserXp member (rpg.value user)), d.
    split; [reflexivity | right; eexists; reflexivity].
  - destruct (db.get_user member (rpg.store w)) as [[new_user|] d];
      cbn [fst snd]; [rewrite Hoff; cbn [andb]|];
      exists (rpg.StorageGetUser member), d; (split; [reflexivity | now left]).
Qed.

(** An online member whose reconciled record clears the next level: the
    level update of the store runs twice, one after the other, and the hook
    is fired once, with the level the second update returns. *)
Lemma sync_user_xp_level_up (member : Member)
    (self : rpg.RPG DB Chat) (w : rpg.World DB Chat)
    (e : rpg.Event) (new_user : db.UserDoc) (d1 : DB) :
  match rpg.config self !! discord.name member with
  | Some user =>
      e = rpg.StorageUpdateUserXp member (rpg.value user)
      /\ db.update_user_xp member (rpg.value user) (rpg.store w) = (new_user, d1)
  | None =>
      e = rpg.StorageGetUser member
      /\ db.get_user member (rpg.store w) = (Some new_user, d1)
  end ->
  String.eqb (status member) "online" = true ->
  rpg.level_up (db.xp new_user) (db.level new_user + 1) = true ->
  let once := db.update_user_level member d1 in
  let twice := db.update_user_level member (snd once) in
  rpg.sync_user_xp member (self, w)
  = rpg.fire_on_user_level_up member (db.level (fst twice))
      (self,
       rpg.record (rpg.StorageUpdateUserLevel member) (snd twice)
         (rpg.record (rpg.StorageUpdateUserLevel member) (snd once)
            (rpg.record e d1 w))).
Proof.
  intros Hrec Hon Hup once twice. subst once twice.
  destruct (db.update_user_level member d1) as [u2 d2] eqn:H2. cbn [fst snd].
  destruct (db.update_user_level member d2) as [u3 d3] eqn:H3. cbn [fst snd].
  unfold rpg.sync_user_xp, bind, try_except, rpg.getitem_config, on_snd, rpg.storage, ret.
  cbn [fst snd].
  destruct (rpg.config self !! discord.name member) as [user|];
    destruct Hrec as [-> Hrec]; cbn [fst snd]; rewrite Hrec; cbn [fst snd];
    rewrite Hon, Hup; cbn [andb fst snd];
    change (rpg.store (rpg.record ?e d1 w)) with d1; rewrite H2; cbn [fst snd];
    change (rpg.store (rpg.record ?e d2 ?w')) with d2; rewrite H3; reflexivity.
Qed.

(** The flush of [update_user_xp], for comparison: the level update of the
    store runs once. *)
Lemma update_user_xp_flush_level_up (member : Member) (value : Q)
    (self : rpg.RPG DB Chat) (w : rpg.World DB Chat)
    (user : rpg.ActivityWindow) (new_user : db.UserDoc) (d1 : DB) :
  rpg.config self !! discord.name member = Some user ->
  db.update_user_xp member (rpg.value user) (rpg.store w) = (new_user, d1) ->
  rpg.level_up (db.xp new_user) (db.level new_user + 1) = true ->
  let once := db.update_user_level member d1 in
  rpg.update_user_xp member value true (self, w)
  = bind (rpg.fire_on_user_level_up member (db.level (fst once)))
      (fun _ =>
         bind (on_snd rpg.time_time)
           (fun t' => rpg.setitem_config (discord.name member)
                        {| rpg.value := value; rpg.last_update := t' |}))
      (self,
       rpg.record (rpg.StorageUpdateUserLevel member) (snd once)
         (rpg.record (rpg.StorageUpdateUserXp member (rpg.value user)) d1 (rpg.tick w))).
Proof.
  intros Hget Hxp Hup once. subst once.
  destruct (db.update_user_level member d1) as [u2 d2] eqn:H2. cbn [fst snd].
  unfold rpg.update_user_xp.
  unfold bind at 1, try_except, rpg.getitem_config. cbn [fst snd]. rewrite Hget.
  unfold bind at 1, on_snd at 1, rpg.time_time. cbn [fst snd orb negb andb].
  unfold bind at 1, on_snd at 1, rpg.storage.
  cbn [fst snd]. change (rpg.store (rpg.tick w)) with (rpg.store w).
  rewrite Hxp. cbn [fst snd]. rewrite Hup.
  unfold bind at 1 2. unfold on_snd at 1. cbn [fst snd].
  change (rpg.store (rpg.record ?e d1 ?w')) with d1. rewrite H2.
  reflexivity.
Qed.

End sync_facts.

(** On the store modelled from the spec, which recomputes the level from
    the stored xp: alice is online, has no window, and her record is at
    level 1 with 40 xp (level 3 requires 31.5).  One call of
    [sync_user_xp] writes the level twice, the second time without a
    change, and fires the hook once, with level 3. *)
Lemma sync_user_xp_writes_level_twice :
  let '(r, (self, w)) :=
    rpg.sync_user_xp sample.alice
      (sample.engine, sample.world (sample.stored 40 1) sample.steady) in
  r = Returned tt
  /\ rpg.level_up 40 (1 + 1) = true
  /\ rpg.store w !! "alice" = Some {| db.xp := 40; db.level := 3 |}
  /\ rpg.trace w = [ rpg.StorageGetUser sample.alice;
                     rpg.StorageUpdateUserLevel sample.alice;
                     rpg.StorageUpdateUserLevel sample.alice;
                     rpg.HookFired sample.alice 3 ].
Proof. vm_compute. repeat split; reflexivity. Qed.

(** The same record flushed by [update_user_xp] in [duel] mode: the level
    is written once, and the hook is fired with the same level 3. *)
Lemma update_user_xp_writes_level_once :
  let '(r, (self, w)) :=
    rpg.update_user_xp sample.alice 40 true
      (sample.engine, sample.world (sample.stored 0 1) sample.steady) in
  r = Returned tt
  /\ rpg.store w !! "alice" = Some {| db.xp := 40; db.level := 3 |}
  /\ rpg.trace w = [ rpg.StorageUpdateUserXp sample.alice 40;
                     rpg.StorageUpdateUserLevel sample.alice;
                     rpg.HookFired sample.alice 3 ].
Proof. vm_compute. repeat split; reflexivity. Qed.

(* ===================================================================== *)
(** * The level-up announcement                                           *)
(* ===================================================================== *)

Section ding_facts.
Context {DB Chat BunkUser : Type}.
Context `{!db.Database DB} `{!Platform Chat BunkUser}.

(** The handler itself announces the level of everyone but fugwenna. *)
Lemma ding_announces (member : Member) (value : Z) (w : rpg.World DB Chat) :
  discord.name member <> "fugwenna" ->
  rpg_cog.ding member value w
  = bind (rpg.platform
            (say_to_channel general
               (Some (":bell: DING! " ++ mention member ++ " has advanced to level "
                      ++ pretty value ++ "!")) None))
      (fun _ => ret tt) w.
Proof.
  intros Hne. unfold rpg_cog.ding.
  destruct (String.eqb_spec (discord.name member) "fugwenna"); [contradiction|].
  reflexivity.
Qed.

Lemma ding_skips_fugwenna (member : Member) (value : Z) (w : rpg.World DB Chat) :
  discord.name member = "fugwenna" ->
  rpg_cog.ding member value w = (Returned tt, w).
Proof.
  intros He. unfold rpg_cog.ding. rewrite He. reflexivity.
Qed.

(** C4 on the code: constructing the cog raises [AttributeError], because
    the engine has no attribute [on_user_level]; the engine is left as it
    was, its level-up hook has no subscriber, and firing that hook for any
    member and level makes no call to the chat platform. *)
Theorem ding_is_never_subscribed (member : Member) (level : Z) (w : rpg.World DB Chat) :
  rpg_cog.__init__ (rpg.__init__ : rpg.RPG DB Chat)
  = (Raised (AttributeError "on_user_level"), rpg.__init__)
  /\ rpg.on_user_level_up (rpg.__init__ : rpg.RPG DB Chat) = []
  /\ rpg.fire_on_user_level_up member level (rpg.__init__, w)
     = (Returned tt, (rpg.__init__, rpg.record (rpg.HookFired member level) (rpg.store w) w))
  /\ rpg.chat (rpg.record (rpg.HookFired member level) (rpg.store w) w) = rpg.chat w.
Proof. repeat split. Qed.

End ding_facts.

(** On the recording platform: the hook fired for alice at level 2, after
    the attempt to construct the cog, announces nothing. *)
Lemma unsubscribed_hook_sample :
  let rpg_after := snd (rpg_cog.__init__ sample.engine) in
  let '(r, (_, w)) :=
    rpg.fire_on_user_level_up sample.alice 2
      (rpg_after, sample.world ∅ sample.steady) in
  r = Returned tt /\ rpg.chat w = [].
Proof. vm_compute. split; reflexivity. Qed.

(** Had the handler been added to [on_user_level_up], the firing would
    have announced the level. *)
Lemma ding_when_subscribed_sample :
  let subscribed :=
    snd (rpg.setattr_hook "on_user_level_up"
           (event_hook.iadd event_hook.new
              (fun args => rpg_cog.ding (fst args) (snd args))) sample.engine) in
  let '(r, (_, w)) :=
    rpg.fire_on_user_level_up sample.alice 2
      (subscribed, sample.world ∅ sample.steady) in
  r = Returned tt
  /\ rpg.chat w
     = [ recording.SaidTo recording.general_channel
           (Some ":bell: DING! <@7> has advanced to level 2!") None ].
Proof. vm_compute. split; reflexivity. Qed.

(* ===================================================================== *)
(** * Cancelling a custom game                                            *)
(* ===================================================================== *)

Section game_facts.
Context {Chat BunkUser : Type} `{!Platform Chat BunkUser}.

(** C9: on a game that is not cancelled, [is_cancel] sets the flag and
    deletes the owning channel when the lower-cased content is "cancel",
    and does nothing at all for any other content; so the flag is set
    exactly when the lower-cased content is "cancel". *)
Theorem is_cancel_iff (self : custom_game.CustomGame) (msg : Message) (c : Chat) :
  custom_game.is_cancelled self = false ->
  (lower (content msg) = "cancel" ->
   custom_game.is_cancel msg (self, c)
   = (let '(r, c') := TextChannel_delete (custom_game.channel self) c in
      (r, ({| custom_game.channel := custom_game.channel self;
              custom_game.is_cancelled := true |}, c'))))
  /\ (lower (content msg) <> "cancel" ->
      custom_game.is_cancel msg (self, c) = (Returned tt, (self, c)))
  /\ (custom_game.is_cancelled (fst (snd (custom_game.is_cancel msg (self, c)))) = true
      <-> lower (content msg) = "cancel").
Proof.
  intros Hflag. unfold custom_game.is_cancel.
  destruct (String.eqb_spec (lower (content msg)) "cancel") as [Heq|Hne].
  - assert (Hrun :
      bind (on_fst (modify (fun self0 =>
              {| custom_game.channel := custom_game.channel self0;
                 custom_game.is_cancelled := true |})))
           (fun _ => custom_game.cancel_game) (self, c)
      = (let '(r, c') := TextChannel_delete (custom_game.channel self) c in
         (r, ({| custom_game.channel := custom_game.channel self;
                 custom_game.is_cancelled := true |}, c')))).
    { unfold bind, on_fst, modify, custom_game.cancel_game, on_snd.
      cbn [fst snd custom_game.channel].
      destruct (TextChannel_delete (custom_game.channel self) c); reflexivity. }
    split; [intros _; exact Hrun|]. split; [contradiction|].
    rewrite Hrun. destruct (TextChannel_delete (custom_game.channel self) c).
    cbn. tauto.
  - split; [contradiction|]. split; [reflexivity|].
    cbn. rewrite Hflag. split; [discriminate|contradiction].
Qed.

End game_facts.

Lemma is_cancel_iff_witness :
  custom_game.is_cancel sample.cancel_message
    (custom_game.__init__ recording.general_channel, [])
  = (Returned tt,
     ({| custom_game.channel := recording.general_channel;
         custom_game.is_cancelled := true |},
      [recording.ChannelDeleted recording.general_channel])).
Proof.
  exact (proj1 (is_cancel_iff (custom_game.__init__ recording.general_channel)
                  sample.cancel_message [] eq_refl) eq_refl).
Defined.

(* ===================================================================== *)
(** * Routing moves to the Connect-Four game                              *)
(* ===================================================================== *)

Section connectfour_facts.
Context {Game Chat BunkUser : Type}.
Context `{!Platform Chat BunkUser}.
Context `{!connectfour_cog.ConnectFourGame Game Chat BunkUser}.

(** Messages of bots and messages of other channels are ignored. *)
Lemma get_answer_ignores (message : Message)
    (self : connectfour_cog.ConnectFourCog Game) (c : Chat) :
  bot (author message) = true
  \/ channel_name (channel message) <> "connect4-fugwenna" ->
  connectfour_cog.get_answer message (self, c) = (Returned tt, (self, c)).
Proof.
  intros [Hbot|Hch]; unfold connectfour_cog.get_answer.
  - now rewrite Hbot.
  - destruct (bot (author message)); [reflexivity|]. cbn [negb].
    now destruct (String.eqb_spec (channel_name (channel message)) "connect4-fugwenna").
Qed.

(** C10: for a message of a member in the channel "connect4-fugwenna",
    once the author is resolved and the message deleted, an empty list of
    games makes [self.games[0]] raise [IndexError]; with a game in the list
    the handler does what the [update] of the first game does. *)
Theorem get_answer_needs_a_game (message : Message)
    (self : connectfour_cog.ConnectFourCog Game) (c c1 c2 : Chat) (user : BunkUser) :
  bot (author message) = false ->
  channel_name (channel message) = "connect4-fugwenna" ->
  users_get_by_id (member_id (author message)) c = (Returned user, c1) ->
  Message_delete message c1 = (Returned tt, c2) ->
  (connectfour_cog.games self = [] ->
   connectfour_cog.get_answer message (self, c) = (Raised IndexError, (self, c2)))
  /\ (forall game rest,
        connectfour_cog.games self = game :: rest ->
        connectfour_cog.get_answer message (self, c)
        = connectfour_cog.on_game 0 game (connectfour_cog.update message user) (self, c2)).
Proof.
  intros Hbot Hch Huser Hdel.
  assert (Hrun :
    connectfour_cog.get_answer message (self, c)
    = bind (getitem (connectfour_cog.games self) 0)
        (fun game => connectfour_cog.on_game 0 game
                       (connectfour_cog.update message user)) (self, c2)).
  { unfold connectfour_cog.get_answer.
    rewrite Hbot, Hch, String.eqb_refl. cbn [negb].
    unfold bind at 1, on_snd at 1. cbn [fst snd]. rewrite Huser.
    unfold bind at 1, on_snd at 1. cbn [fst snd]. rewrite Hdel.
    reflexivity. }
  rewrite Hrun. split.
  - intros Hnil. rewrite Hnil. reflexivity.
  - intros game rest Hcons. rewrite Hcons. reflexivity.
Qed.

End connectfour_facts.

Lemma get_answer_needs_a_game_witness :
  connectfour_cog.get_answer sample.move
    (connectfour_cog.__init__ : connectfour_cog.ConnectFourCog (list string), [])
  = (Raised IndexError,
     (connectfour_cog.__init__, [recording.MessageDeleted sample.move])).
Proof.
  exact (proj1 (get_answer_needs_a_game sample.move connectfour_cog.__init__
                  [] [] [recording.MessageDeleted sample.move] 7
                  eq_refl eq_refl eq_refl eq_refl) eq_refl).
Defined.

(** With one game in the list the same message is delivered to it. *)
Lemma get_answer_with_a_game_sample :
  connectfour_cog.get_answer sample.move
    ({| connectfour_cog.games := [ [] ] |}, [])
  = (Returned tt,
     ({| connectfour_cog.games := [ ["3"] ] |},
      [recording.MessageDeleted sample.move])).
Proof. reflexivity. Qed.

(* ===================================================================== *)
(** * The tracker channel: what a purge removes                           *)
(* ===================================================================== *)

(** A message stays in the channel after a purge exactly when it was there
    and the check answers [False] for it. *)
Lemma purge_from_keeps (history : list Message) (check : Message -> bool) (m : Message) :
  In m (twitch_cog.purge_from history check) <-> In m history /\ check m = false.
Proof.
  unfold twitch_cog.purge_from. rewrite filter_In.
  now rewrite negb_true_iff.
Qed.

(** C3, as the code has it: when both tracked status messages exist, the
    purge check answers [False] for a message, which keeps it, exactly when
    its id is that of the stream-list message or of the help message; when
    either of them does not exist yet, the check answers [True] for every
    message, so the purge removes every message. *)
Theorem rm_unwanted_messages_predicate_spec
    (self : twitch_cog.TwitchCog) (message : Message) :
  (forall l h,
     twitch_cog.msg_stream_list self = Some l ->
     twitch_cog.msg_help self = Some h ->
     (twitch_cog.rm_unwanted_messages_predicate self message = false
      <-> id message = id l \/ id message = id h))
  /\ (twitch_cog.msg_stream_list self = None \/ twitch_cog.msg_help self = None ->
      twitch_cog.rm_unwanted_messages_predicate self message = true
      /\ forall history,
           twitch_cog.purge_from history
             (twitch_cog.rm_unwanted_messages_predicate self) = []).
Proof.
  split.
  - intros l h Hl Hh. unfold twitch_cog.rm_unwanted_messages_predicate.
    rewrite Hl, Hh. cbn [truthy negb].
    destruct (Z.eqb_spec (id message) (id l)) as [El|Nl];
      destruct (Z.eqb_spec (id message) (id h)) as [Eh|Nh]; cbn;
      split; auto; try discriminate.
    intros [?|?]; contradiction.
  - intros Hunset.
    assert (Hall : forall m, twitch_cog.rm_unwanted_messages_predicate self m = true).
    { intros m. unfold twitch_cog.rm_unwanted_messages_predicate.
      destruct Hunset as [-> | ->]; [reflexivity|].
      now destruct (twitch_cog.msg_stream_list self). }
    split; [apply Hall|].
    induction history as [|m history IH]; [reflexivity|].
    unfold twitch_cog.purge_from in *. cbn. now rewrite Hall.
Qed.

Lemma rm_unwanted_messages_predicate_spec_witness :
  (twitch_cog.rm_unwanted_messages_predicate sample.tracker sample.help = false
   <-> id sample.help = id sample.listing \/ id sample.help = id sample.help)
  /\ twitch_cog.rm_unwanted_messages_predicate twitch_cog.__init__ sample.chatter = true.
Proof.
  split.
  - exact (proj1 (rm_unwanted_messages_predicate_spec sample.tracker sample.help)
             sample.listing sample.help eq_refl eq_refl).
  - exact (proj1 (proj2 (rm_unwanted_messages_predicate_spec twitch_cog.__init__
                           sample.chatter) (or_introl eq_refl))).
Defined.

(** C3, as stated, fails: before the tracked status messages exist the
    check answers [True] for a message, and a purge with this check removes
    the message instead of keeping it. *)
Lemma rm_unwanted_messages_predicate_unset :
  twitch_cog.msg_stream_list twitch_cog.__init__ = None
  /\ twitch_cog.rm_unwanted_messages_predicate twitch_cog.__init__ sample.chatter = true
  /\ twitch_cog.purge_from [sample.chatter]
       (twitch_cog.rm_unwanted_messages_predicate twitch_cog.__init__) = [].
Proof. repeat split. Qed.

(* ===================================================================== *)
(** * The tracker channel: messages posted later                          *)
(* ===================================================================== *)

Section rm_msg_facts.
Context {Chat BunkUser : Type} `{!Platform Chat BunkUser}.

(** A message of another channel is left alone. *)
Lemma rm_msg_other_channel (msg : Message) (self : twitch_cog.TwitchCog)
    (tbl : list db.FollowedStream) (c : Chat) :
  channel_id (channel msg) <> channel_id streams ->
  twitch_cog.rm_msg msg (self, (tbl, c)) = (Returned tt, (self, (tbl, c))).
Proof.
  intros Hne. unfold twitch_cog.rm_msg, bind, twitch_cog.self_, on_fst, get.
  cbn [fst snd].
  now destruct (Z.eqb_spec (channel_id (channel msg)) (channel_id streams)).
Qed.

(** With both status messages in place, a message of the tracker channel
    is handed to [delete_message] exactly when it is neither of them. *)
Lemma rm_msg_tracked (msg l h : Message) (self : twitch_cog.TwitchCog)
    (tbl : list db.FollowedStream) (c : Chat) :
  twitch_cog.msg_stream_list self = Some l ->
  twitch_cog.msg_help self = Some h ->
  channel_id (channel msg) = channel_id streams ->
  twitch_cog.rm_msg msg (self, (tbl, c))
  = if negb (id msg =? id l)%Z && negb (id msg =? id h)%Z
    then twitch_cog.bot_ (delete_message msg) (self, (tbl, c))
    else (Returned tt, (self, (tbl, c))).
Proof.
  intros Hl Hh Hch.
  unfold twitch_cog.rm_msg, bind, twitch_cog.self_, on_fst, get.
  cbn [fst snd]. rewrite Hch, Z.eqb_refl, Hl, Hh. cbn [twitch_cog.attr_id].
  unfold ret.
  destruct (id msg =? id l)%Z; cbn [negb andb]; [reflexivity|].
  destruct (id msg =? id h)%Z; reflexivity.
Qed.

(** Without a stream-list message, a message of the tracker channel makes
    the listener raise; nothing is deleted. *)
Lemma rm_msg_unset (msg : Message) (self : twitch_cog.TwitchCog)
    (tbl : list db.FollowedStream) (c : Chat) :
  twitch_cog.msg_stream_list self = None ->
  channel_id (channel msg) = channel_id streams ->
  twitch_cog.rm_msg msg (self, (tbl, c))
  = (Raised (AttributeError "id"), (self, (tbl, c))).
Proof.
  intros Hl Hch.
  unfold twitch_cog.rm_msg, bind, twitch_cog.self_, on_fst, get.
  cbn [fst snd]. rewrite Hch, Z.eqb_refl, Hl. reflexivity.
Qed.

End rm_msg_facts.

(** C8 at its failing input: the listener, subscribed when the cog is
    constructed, receives alice's message in the tracker channel before
    the status messages exist.  It raises [AttributeError] and deletes
    nothing. *)
Theorem rm_msg_before_first_render :
  channel sample.chatter = recording.streams_channel
  /\ twitch_cog.rm_msg sample.chatter (twitch_cog.__init__, ([], []))
     = (Raised (AttributeError "id"), (twitch_cog.__init__, ([], []))).
Proof. split; reflexivity. Qed.

(** Once both status messages exist the same message is deleted. *)
Lemma rm_msg_after_first_render :
  twitch_cog.rm_msg sample.chatter (sample.tracker, ([], []))
  = (Returned tt, (sample.tracker, ([], [recording.Deleted sample.chatter]))).
Proof. reflexivity. Qed.

(* ===================================================================== *)
(** * Registering a stream twice                                          *)
(* ===================================================================== *)

(** A name is found in the collection exactly when a record carries it. *)
Lemma streams_get_present (sname : string) (tbl : list db.FollowedStream) :
  (exists s, In s tbl /\ db.name s = sname)
  <-> exists s, db.streams_get sname tbl = Some s.
Proof.
  unfold db.streams_get. split.
  - intros (s & Hin & Hname).
    destruct (find _ tbl) as [s'|] eqn:Hfind; [eauto|].
    apply (find_none _ _ Hfind) in Hin. rewrite Hname, String.eqb_refl in Hin.
    discriminate.
  - intros (s & Hfind). apply find_some in Hfind as [Hin Hname].
    apply String.eqb_eq in Hname. eauto.
Qed.

Section stream_facts.
Context {Chat BunkUser : Type} `{!Platform Chat BunkUser}.




End stream_facts.



(** The whole command on the same input: the error is shown as a reply and
    the collection still holds the one record. *)
Lemma stream_duplicate_sample :
  let '(r, (_, (tbl, log))) :=
    twitch_cog.stream sample.stream_command (sample.tracker, (sample.roster, [])) in
  r = Returned tt /\ tbl = sample.roster
  /\ last log
     = Some (recording.Said
               (Some "Stream 'shroud' has already been added to the database!") None).
Proof. vm_compute. repeat split; reflexivity. Qed.

(** A name that is not in the collection yet is inserted. *)
Lemma stream_new_sample :
  let '(r, (_, (tbl, _))) :=
    twitch_cog.stream sample.stream_command (sample.tracker, ([], [])) in
  r = Returned tt
  /\ tbl = [ {| db.name := "shroud"; db.added_by := "alice" |} ].
Proof. vm_compute. split; reflexivity. Qed.

(* ===================================================================== *)
(** * Reasoning about what a routine keeps                                *)
(* ===================================================================== *)

Section keeps_rules.
Context {S : Type} (R : S -> S -> Prop).
Hypothesis R_refl : forall s, R s s.
Hypothesis R_trans : forall s1 s2 s3, R s1 s2 -> R s2 s3 -> R s1 s3.

Lemma keeps_ret {A} (a : A) : frame.keeps R (ret a).
Proof. intros s. apply R_refl. Qed.

Lemma keeps_raise {A} (e : exn) : frame.keeps R (@raise S A e).
Proof. intros s. apply R_refl. Qed.

Lemma keeps_get : frame.keeps R get.
Proof. intros s. apply R_refl. Qed.

Lemma keeps_bind {A B} (m : M S A) (k : A -> M S B) :
  frame.keeps R m -> (forall a, frame.keeps R (k a)) -> frame.keeps R (bind m k).
Proof.
  intros Hm Hk s. unfold bind. specialize (Hm s).
  destruct (m s) as [[a|e] s1]; cbn in *; [|exact Hm].
  eapply R_trans; [exact Hm|apply Hk].
Qed.

Lemma keeps_try_except {A} (body : M S A) (handler : exn -> M S A) :
  frame.keeps R body -> (forall e, frame.keeps R (handler e)) ->
  frame.keeps R (try_except body handler).
Proof.
  intros Hm Hk s. unfold try_except. specialize (Hm s).
  destruct (body s) as [[a|e] s1]; cbn in *; [exact Hm|].
  eapply R_trans; [exact Hm|apply Hk].
Qed.

Lemma keeps_getitem {A} (xs : list A) (i : nat) : frame.keeps R (getitem xs i).
Proof. unfold getitem. destruct (xs !! i); [apply keeps_ret|apply keeps_raise]. Qed.

End keeps_rules.

(* ===================================================================== *)
(** * The leveling formula: order                                         *)
(* ===================================================================== *)

(** The float the expression evaluates to does not decrease with the
    level, from level 0 on. *)
Lemma calc_req_xp_le (L L' : Z) :
  0 <= L -> L <= L' -> (rpg.calc_req_xp L <= rpg.calc_req_xp L')%Q.
Proof.
  intros H0 Hle. unfold rpg.calc_req_xp, rpg.XP_CONST, rpg.fadd.
  apply binary64_le. apply Qplus_le_compat.
  - apply binary64_le. rewrite <- Zle_Qle.
    assert (Hcase : L = L' \/ L + 1 <= L') by lia.
    destruct Hcase as [->|Hlt]; [lia|].
    assert (0 <= (L' - L) * (5 * (L + L') - 5)) by (apply Z.mul_nonneg_nonneg; lia).
    lia.
  - apply binary64_le, round_le, binary64_le.
    unfold Qdiv. apply Qmult_le_compat_r; [|discriminate].
    now rewrite <- Zle_Qle.
Qed.

(** X1: from level 0 to level 30011996, where the evaluation is exact,
    every level requires strictly more xp than the one before it. *)
Theorem calc_req_xp_increasing (L : Z) :
  0 <= L < 30011996 ->
  rpg.calc_req_xp_checked L = Returned (rpg.calc_req_xp L)
  /\ rpg.calc_req_xp_checked (L + 1) = Returned (rpg.calc_req_xp (L + 1))
  /\ (rpg.calc_req_xp L < rpg.calc_req_xp (L + 1))%Q.
Proof.
  intros HL.
  destruct (calc_req_xp_exact L) as [Ha Ea]; [lia|].
  destruct (calc_req_xp_exact (L + 1)) as [Hb Eb]; [lia|].
  split; [exact Ha|]. split; [exact Hb|].
  rewrite Ea, Eb. unfold Qdiv. apply Qmult_lt_compat_r; [reflexivity|].
  rewrite <- Zlt_Qlt. lia.
Qed.

Lemma calc_req_xp_increasing_witness :
  rpg.calc_req_xp_checked 4 = Returned (rpg.calc_req_xp 4)
  /\ rpg.calc_req_xp_checked (4 + 1) = Returned (rpg.calc_req_xp (4 + 1))
  /\ (rpg.calc_req_xp 4 < rpg.calc_req_xp (4 + 1))%Q.
Proof. apply (calc_req_xp_increasing 4). lia. Defined.

(** X2: [level_up] is monotone: xp that clears a level clears every lower
    level from 0 on, and so does any larger xp. *)
Theorem level_up_monotone (xp xp' : Q) (L L' : Z) :
  0 <= L -> L <= L' -> (xp <= xp')%Q ->
  rpg.level_up xp L' = true -> rpg.level_up xp' L = true.
Proof.
  intros H0 Hle Hxp Hup. apply level_up_iff. apply level_up_iff in Hup.
  pose proof (calc_req_xp_le L L' H0 Hle). lra.
Qed.

Lemma level_up_monotone_witness : rpg.level_up 50 2 = true.
Proof.
  apply (level_up_monotone 40 50 2 3); [lia | lia | discriminate | reflexivity].
Defined.

(* ===================================================================== *)
(** * The activity window: flushing, stale clocks, the cap                *)
(* ===================================================================== *)


Section flush_facts.
Context {DB Chat : Type} `{!db.Database DB}.


(** X4: a call outside [duel] mode whose clock reading is not later than
    the window's timestamp changes nothing but the clock: its value is
    neither added nor flushed. *)
Theorem update_user_xp_stale_clock (member : Member) (value : Q)
    (self : rpg.RPG DB Chat) (w : rpg.World DB Chat) (user : rpg.ActivityWindow) :
  rpg.config self !! discord.name member = Some user ->
  (rpg.clock w (rpg.reads w) <= rpg.last_update user)%Q ->
  rpg.update_user_xp member value false (self, w) = (Returned tt, (self, rpg.tick w)).
Proof.
  intros Hget Hstale.
  assert (Hpos : rpg.Qlt_bool 0 (rpg.clock w (rpg.reads w) - rpg.last_update user) = false)
    by (apply Qlt_bool_false; lra).
  unfold rpg.update_user_xp.
  unfold bind at 1, try_except, rpg.getitem_config. cbn [fst snd]. rewrite Hget.
  unfold bind at 1, on_snd at 1, rpg.time_time. cbn [fst snd orb].
  now rewrite Hpos.
Qed.

(** X5: once the accumulator has reached the cap, calls inside the window
    are dropped whole, whatever their values: the engine is exactly as
    before and nothing is written. *)
Theorem update_user_xp_capped (member : Member) (values : list Q) :
  forall (self : rpg.RPG DB Chat) (w : rpg.World DB Chat) (user : rpg.ActivityWindow),
    rpg.config self !! discord.name member = Some user ->
    (inject_Z rpg.UPDATE_CAP <= rpg.value user)%Q ->
    (forall k, (rpg.reads w <= k)%nat ->
               (rpg.clock w k - rpg.last_update user <= 60)%Q) ->
    exists w',
      for_each values (fun v => rpg.update_user_xp member v false) (self, w)
      = (Returned tt, (self, w'))
      /\ rpg.trace w' = rpg.trace w /\ rpg.store w' = rpg.store w
      /\ rpg.chat w' = rpg.chat w.
Proof.
  induction values as [|v values IH]; intros self w user Hget Hcap Hwin.
  - exists w. auto.
  - cbn [for_each]. unfold bind at 1.
    rewrite (update_user_xp_existing member v self w user Hget)
      by (apply within_minute, Hwin; lia).
    assert (Hfull : rpg.Qlt_bool (rpg.value user) (inject_Z rpg.UPDATE_CAP) = false)
      by (apply Qlt_bool_false; exact Hcap).
    rewrite Hfull, andb_false_r, insert_id by assumption.
    rewrite set_config_id.
    destruct (IH self (rpg.tick w) user Hget Hcap) as (w' & Hrun & Htr & Hst & Hch).
    { intros k Hk. apply Hwin. cbn in Hk. lia. }
    exists w'. rewrite Hrun. auto.
Qed.

End flush_facts.


Lemma update_user_xp_stale_clock_witness :
  rpg.update_user_xp sample.alice 7 false
    (sample.engine_with 5, sample.world ∅ sample.steady)
  = (Returned tt, (sample.engine_with 5, rpg.tick (sample.world ∅ sample.steady))).
Proof.
  apply (update_user_xp_stale_clock sample.alice 7 (sample.engine_with 5)
           (sample.world ∅ sample.steady) {| rpg.value := 5; rpg.last_update := 0 |}).
  - reflexivity.
  - vm_compute. discriminate.
Defined.

Lemma update_user_xp_capped_witness :
  exists w',
    for_each [25; 3]%Q (fun v => rpg.update_user_xp sample.alice v false)
      (sample.engine_with 60, sample.later_world ∅)
    = (Returned tt, (sample.engine_with 60, w'))
    /\ rpg.trace w' = [] /\ rpg.store w' = ∅ /\ rpg.chat w' = [].
Proof.
  apply (update_user_xp_capped sample.alice [25; 3]%Q (sample.engine_with 60)
           (sample.later_world ∅) {| rpg.value := 60; rpg.last_update := 0 |}).
  - reflexivity.
  - vm_compute. discriminate.
  - intros k _. apply steady_within_minute.
Defined.

(* ===================================================================== *)
(** * The engine: what a call leaves alone                                *)
(* ===================================================================== *)

Section engine_frame.
Context {DB Chat : Type} `{!db.Database DB}.

Lemma same_for_others_refl (name : string) (s : rpg.RPG DB Chat * rpg.World DB Chat) :
  frame.same_for_others name s s.
Proof. repeat split. Qed.

Lemma same_for_others_trans (name : string)
    (s1 s2 s3 : rpg.RPG DB Chat * rpg.World DB Chat) :
  frame.same_for_others name s1 s2 -> frame.same_for_others name s2 s3 ->
  frame.same_for_others name s1 s3.
Proof.
  intros (Hc1 & Hh1 & Ha1) (Hc2 & Hh2 & Ha2). repeat split.
  - intros other Hne. rewrite Hc2, Hc1 by assumption. reflexivity.
  - congruence.
  - congruence.
Qed.

Lemma on_snd_keeps_engine {A} (m : M (rpg.World DB Chat) A)
    (s : rpg.RPG DB Chat * rpg.World DB Chat) :
  fst (snd (on_snd m s)) = fst s.
Proof. unfold on_snd. now destruct (m (snd s)). Qed.

Lemma fire_keeps_engine (member : Member) (level : Z)
    (s : rpg.RPG DB Chat * rpg.World DB Chat) :
  fst (snd (rpg.fire_on_user_level_up member level s)) = fst s.
Proof. unfold rpg.fire_on_user_level_up. apply on_snd_keeps_engine. Qed.

Lemma keeps_others_on_snd (name : string) {A} (m : M (rpg.World DB Chat) A) :
  frame.keeps (frame.same_for_others name) (on_snd m).
Proof.
  intros s. unfold frame.same_for_others. rewrite on_snd_keeps_engine. auto.
Qed.

Lemma keeps_others_fire (name : string) (member : Member) (level : Z) :
  frame.keeps (frame.same_for_others (DB:=DB) (Chat:=Chat) name)
    (rpg.fire_on_user_level_up member level).
Proof.
  intros s. unfold frame.same_for_others. rewrite fire_keeps_engine. auto.
Qed.

Lemma keeps_others_getitem (name key : string) :
  frame.keeps (frame.same_for_others (DB:=DB) (Chat:=Chat) name)
    (rpg.getitem_config key).
Proof.
  intros s. unfold rpg.getitem_config.
  destruct (rpg.config (fst s) !! key); apply same_for_others_refl.
Qed.

Lemma keeps_others_setitem (name : string) (user : rpg.ActivityWindow) :
  frame.keeps (frame.same_for_others (DB:=DB) (Chat:=Chat) name)
    (rpg.setitem_config name user).
Proof.
  intros s. unfold rpg.setitem_config, frame.same_for_others. cbn.
  repeat split. intros other Hne. now apply lookup_insert_ne.
Qed.

(** X6: whatever the value, the mode, the clock and the outcome, a call of
    [update_user_xp] for a member leaves the windows stored under every
    other name and the subscribers of the engine's hooks as they were.
    Windows are keyed by the member's name: members who share a name share
    a window. *)
Theorem update_user_xp_only_own_window (member : Member) (value : Q) (duel : bool)
    (self : rpg.RPG DB Chat) (w : rpg.World DB Chat) :
  let self' := fst (snd (rpg.update_user_xp member value duel (self, w))) in
  (forall other, other <> discord.name member ->
     rpg.config self' !! other = rpg.config self !! other)
  /\ rpg.on_user_level_up self' = rpg.on_user_level_up self
  /\ rpg.other_attrs self' = rpg.other_attrs self.
Proof.
  set (R := frame.same_for_others (DB:=DB) (Chat:=Chat) (discord.name member)).
  assert (Hrefl : forall s, R s s) by apply same_for_others_refl.
  assert (Htrans : forall s1 s2 s3, R s1 s2 -> R s2 s3 -> R s1 s3)
    by apply same_for_others_trans.
  assert (Hkeeps : frame.keeps R (rpg.update_user_xp member value duel)).
  { unfold rpg.update_user_xp.
    apply keeps_bind; [assumption| |intros user].
    { apply keeps_try_except; [assumption|apply keeps_others_getitem|intros _].
      apply keeps_bind; [assumption|apply keeps_others_on_snd|intros t].
      apply keeps_bind; [assumption|apply keeps_others_setitem|intros _].
      apply keeps_others_getitem. }
    apply keeps_bind; [assumption|apply keeps_others_on_snd|intros t].
    cbv zeta.
    destruct (duel || _); [|now apply keeps_ret].
    destruct (negb duel && _).
    { destruct (rpg.Qlt_bool _ _); [apply keeps_others_setitem|now apply keeps_ret]. }
    apply keeps_bind; [assumption|apply keeps_others_on_snd|intros new_user].
    apply keeps_bind; [assumption| |intros _].
    { destruct (rpg.level_up _ _); [|now apply keeps_ret].
      apply keeps_bind; [assumption|apply keeps_others_on_snd|intros leveled].
      apply keeps_others_fire. }
    apply keeps_bind; [assumption|apply keeps_others_on_snd|intros t'].
    apply keeps_others_setitem. }
  exact (Hkeeps (self, w)).
Qed.

(** X7: whatever the member's status, the store's answers and the outcome,
    [sync_user_xp] leaves the engine as it was; in particular the member's
    window is not restarted. *)
Theorem sync_user_xp_keeps_engine (member : Member)
    (self : rpg.RPG DB Chat) (w : rpg.World DB Chat) :
  fst (snd (rpg.sync_user_xp member (self, w))) = self.
Proof.
  set (R := fun s s' : rpg.RPG DB Chat * rpg.World DB Chat => fst s' = fst s).
  assert (Hrefl : forall s, R s s) by reflexivity.
  assert (Htrans : forall s1 s2 s3, R s1 s2 -> R s2 s3 -> R s1 s3)
    by (unfold R; intros; congruence).
  assert (Hsnd : forall A (m : M (rpg.World DB Chat) A), frame.keeps R (on_snd m))
    by (intros A m s; apply on_snd_keeps_engine).
  assert (Hget : forall key, frame.keeps R (rpg.getitem_config key)).
  { intros key s. unfold rpg.getitem_config, R.
    now destruct (rpg.config (fst s) !! key). }
  assert (Hkeeps : frame.keeps R (rpg.sync_user_xp member)).
  { unfold rpg.sync_user_xp.
    apply keeps_bind; [assumption| |intros new_user].
    { apply keeps_try_except; [assumption| |intros _; now apply keeps_ret].
      apply keeps_bind; [assumption|apply Hget|intros user].
      apply keeps_bind; [assumption|apply Hsnd|intros nu]. now apply keeps_ret. }
    apply keeps_bind; [assumption| |intros new_user'].
    { destruct new_user; [now apply keeps_ret|apply Hsnd]. }
    destruct new_user'; [|now apply keeps_ret].
    destruct (_ && _); [|now apply keeps_ret].
    apply keeps_bind; [assumption|apply Hsnd|intros _].
    destruct (String.eqb _ _); [|now apply keeps_ret].
    apply keeps_bind; [assumption|apply Hsnd|intros leveled].
    intros s. apply fire_keeps_engine. }
  exact (Hkeeps (self, w)).
Qed.

(** A member who is not online and has a window: the accumulated value is
    handed to storage and nothing else happens. *)
Lemma sync_user_xp_window_offline (member : Member)
    (self : rpg.RPG DB Chat) (w : rpg.World DB Chat) (user : rpg.ActivityWindow) :
  rpg.config self !! discord.name member = Some user ->
  String.eqb (status member) "online" = false ->
  rpg.sync_user_xp member (self, w)
  = (Returned tt,
     (self, rpg.record (rpg.StorageUpdateUserXp member (rpg.value user))
              (snd (db.update_user_xp member (rpg.value user) (rpg.store w))) w)).
Proof.
  intros Hget Hoff.
  unfold rpg.sync_user_xp, bind, try_except, rpg.getitem_config, on_snd, rpg.storage, ret.
  cbn [fst snd]. rewrite Hget. cbn [fst snd].
  destruct (db.update_user_xp member (rpg.value user) (rpg.store w)) as [new_user d].
  cbn [fst snd]. rewrite Hoff. reflexivity.
Qed.

(** X8: since the window is not restarted, two presence changes in a row
    of a member who is not online hand the same accumulated value to
    storage twice. *)
Theorem sync_user_xp_twice_same_value (member : Member)
    (self : rpg.RPG DB Chat) (w : rpg.World DB Chat) (user : rpg.ActivityWindow) :
  rpg.config self !! discord.name member = Some user ->
  String.eqb (status member) "online" = false ->
  let st1 := snd (rpg.sync_user_xp member (self, w)) in
  let st2 := snd (rpg.sync_user_xp member st1) in
  rpg.trace (snd st2)
  = (rpg.trace w ++ [ rpg.StorageUpdateUserXp member (rpg.value user);
                      rpg.StorageUpdateUserXp member (rpg.value user) ])%list
  /\ rpg.config (fst st2) !! discord.name member = Some user.
Proof.
  intros Hget Hoff st1 st2. subst st1 st2.
  rewrite (sync_user_xp_window_offline member self w user Hget Hoff). cbn [snd].
  rewrite (sync_user_xp_window_offline member self _ user Hget Hoff). cbn [fst snd].
  split; [|exact Hget].
  cbn [rpg.trace rpg.record]. now rewrite <- app_assoc.
Qed.

(** X9: an online member whose reconciled record does not clear the next
    level: the reconciliation is the only storage call; no level is written
    and the hook is not fired. *)
Theorem sync_user_xp_below_threshold (member : Member)
    (self : rpg.RPG DB Chat) (w : rpg.World DB Chat)
    (e : rpg.Event) (new_user : db.UserDoc) (d1 : DB) :
  match rpg.config self !! discord.name member with
  | Some user =>
      e = rpg.StorageUpdateUserXp member (rpg.value user)
      /\ db.update_user_xp member (rpg.value user) (rpg.store w) = (new_user, d1)
  | None =>
      e = rpg.StorageGetUser member
      /\ db.get_user member (rpg.store w) = (Some new_user, d1)
  end ->
  rpg.level_up (db.xp new_user) (db.level new_user + 1) = false ->
  rpg.sync_user_xp member (self, w) = (Returned tt, (self, rpg.record e d1 w)).
Proof.
  intros Hrec Hup.
  unfold rpg.sync_user_xp, bind, try_except, rpg.getitem_config, on_snd, rpg.storage, ret.
  cbn [fst snd].
  destruct (rpg.config self !! discord.name member) as [user|];
    destruct Hrec as [-> Hrec]; cbn [fst snd]; rewrite Hrec; cbn [fst snd];
    rewrite Hup, andb_false_r; reflexivity.
Qed.

(** X10: when the flush levels the member up and a subscriber of the hook
    raises, the call raises too and the window is not restarted: the engine
    is as before the call, although the value and the level have been
    written. *)
Theorem update_user_xp_subscriber_raises (member : Member) (value : Q)
    (self : rpg.RPG DB Chat) (w : rpg.World DB Chat)
    (user : rpg.ActivityWindow) (new_user leveled_user : db.UserDoc) (d1 d2 : DB)
    (e : exn) (st' : rpg.RPG DB Chat * rpg.World DB Chat) :
  rpg.config self !! discord.name member = Some user ->
  db.update_user_xp member (rpg.value user) (rpg.store w) = (new_user, d1) ->
  rpg.level_up (db.xp new_user) (db.level new_user + 1) = true ->
  db.update_user_level member d1 = (leveled_user, d2) ->
  rpg.fire_on_user_level_up member (db.level leveled_user)
    (self,
     rpg.record (rpg.StorageUpdateUserLevel member) d2
       (rpg.record (rpg.StorageUpdateUserXp member (rpg.value user)) d1 (rpg.tick w)))
  = (Raised e, st') ->
  rpg.update_user_xp member value true (self, w) = (Raised e, st')
  /\ fst st' = self
  /\ rpg.config (fst st') !! discord.name member = Some user.
Proof.
  intros Hget Hxp Hup Hlevel Hfire.
  assert (Hself : fst st' = self).
  { pose proof (fire_keeps_engine member (db.level leveled_user)
                  (self,
                   rpg.record (rpg.StorageUpdateUserLevel member) d2
                     (rpg.record (rpg.StorageUpdateUserXp member (rpg.value user)) d1
                        (rpg.tick w)))) as Hk.
    rewrite Hfire in Hk. exact Hk. }
  split; [|split; [exact Hself|now rewrite Hself]].
  rewrite (update_user_xp_flush_level_up member value self w user new_user d1 Hget Hxp Hup).
  rewrite Hlevel. cbn [fst snd]. unfold bind at 1. now rewrite Hfire.
Qed.

End engine_frame.

Lemma sync_user_xp_not_online_witness :
  exists e d,
    rpg.sync_user_xp sample.bob (sample.engine, sample.world ∅ sample.steady)
    = (Returned tt, (sample.engine, rpg.record e d (sample.world ∅ sample.steady)))
    /\ (e = rpg.StorageGetUser sample.bob
        \/ exists v, e = rpg.StorageUpdateUserXp sample.bob v).
Proof.
  apply (sync_user_xp_not_online sample.bob sample.engine
           (sample.world ∅ sample.steady)).
  reflexivity.
Defined.

Lemma sync_user_xp_twice_same_value_witness :
  let member :=
    {| member_id := 7; discord.name := "alice"; mention := "<@7>";
       status := "idle"; bot := false |} in
  let st1 := snd (rpg.sync_user_xp member
                    (sample.engine_with 5, sample.world ∅ sample.steady)) in
  let st2 := snd (rpg.sync_user_xp member st1) in
  rpg.trace (snd st2)
  = [ rpg.StorageUpdateUserXp member 5; rpg.StorageUpdateUserXp member 5 ]
  /\ rpg.config (fst st2) !! "alice" = Some {| rpg.value := 5; rpg.last_update := 0 |}.
Proof.
  exact (sync_user_xp_twice_same_value
           {| member_id := 7; discord.name := "alice"; mention := "<@7>";
              status := "idle"; bot := false |}
           (sample.engine_with 5) (sample.world ∅ sample.steady)
           {| rpg.value := 5; rpg.last_update := 0 |} eq_refl eq_refl).
Defined.

Lemma sync_user_xp_below_threshold_witness :
  rpg.sync_user_xp sample.alice
    (sample.engine, sample.world (sample.stored 3 1) sample.steady)
  = (Returned tt,
     (sample.engine,
      rpg.record (rpg.StorageGetUser sample.alice) (sample.stored 3 1)
        (sample.world (sample.stored 3 1) sample.steady))).
Proof.
  exact (sync_user_xp_below_threshold sample.alice sample.engine
           (sample.world (sample.stored 3 1) sample.steady)
           (rpg.StorageGetUser sample.alice) {| db.xp := 3; db.level := 1 |}
           (sample.stored 3 1) (conj eq_refl eq_refl) eq_refl).
Defined.

Lemma update_user_xp_subscriber_raises_witness :
  let w := sample.later_world (sample.stored 0 1) in
  let d1 := snd (spec_store.update_user_xp sample.alice 25 (sample.stored 0 1)) in
  let d2 := snd (spec_store.update_user_level sample.alice d1) in
  let st' :=
    (sample.faulty_engine 25,
     rpg.record (rpg.HookFired sample.alice 2) d2
       (rpg.record (rpg.StorageUpdateUserLevel sample.alice) d2
          (rpg.record (rpg.StorageUpdateUserXp sample.alice 25) d1 (rpg.tick w)))) in
  rpg.update_user_xp sample.alice 7 true (sample.faulty_engine 25, w)
  = (Raised (Exception "subscriber failed"), st')
  /\ fst st' = sample.faulty_engine 25
  /\ rpg.config (fst st') !! "alice" = Some {| rpg.value := 25; rpg.last_update := 0 |}.
Proof.
  exact (update_user_xp_subscriber_raises sample.alice 7 (sample.faulty_engine 25)
           (sample.later_world (sample.stored 0 1))
           {| rpg.value := 25; rpg.last_update := 0 |}
           (fst (spec_store.update_user_xp sample.alice 25 (sample.stored 0 1)))
           (fst (spec_store.update_user_level sample.alice
                   (snd (spec_store.update_user_xp sample.alice 25 (sample.stored 0 1)))))
           _ _ (Exception "subscriber failed") _
           eq_refl eq_refl eq_refl eq_refl eq_refl).
Defined.

(* ===================================================================== *)
(** * The level command                                                   *)
(* ===================================================================== *)

Section level_facts.
Context {DB Chat BunkUser : Type}.
Context `{!db.Database DB} `{!Platform Chat BunkUser} `{!ContextTyping Chat}.

(** X11: once the typing indicator is shown, the [level] command asks the
    store for the author's record and makes no other storage call.  If the
    store has no record to answer with, the command raises [TypeError] and
    sends no reply; otherwise its only further call is the reply naming the
    level of that record. *)
Theorem level_replies_stored_level (ctx : Context) (w : rpg.World DB Chat) (c1 : Chat) :
  send_typing_ctx ctx (rpg.chat w) = (Returned tt, c1) ->
  let asked :=
    rpg.record (rpg.StorageGetUser (author (message ctx)))
      (snd (db.get_user (author (message ctx)) (rpg.store w))) (rpg.set_chat c1 w) in
  match fst (db.get_user (author (message ctx)) (rpg.store w)) with
  | None => rpg_cog.level ctx w = (Raised TypeError, asked)
  | Some user =>
      rpg_cog.level ctx w
      = bind (rpg.platform
                (say (Some ("You are currently level " ++ pretty (db.level user))) None))
          (fun _ => ret tt) asked
  end.
Proof.
  intros Htyping asked. subst asked.
  assert (Hrun : forall k : option db.UserDoc -> M (rpg.World DB Chat) unit,
    bind (rpg.platform (send_typing_ctx ctx))
      (fun _ => bind (rpg.storage (rpg.StorageGetUser (author (message ctx)))
                        (db.get_user (author (message ctx)))) k) w
    = k (fst (db.get_user (author (message ctx)) (rpg.store w)))
        (rpg.record (rpg.StorageGetUser (author (message ctx)))
           (snd (db.get_user (author (message ctx)) (rpg.store w)))
           (rpg.set_chat c1 w))).
  { intros k. unfold bind, rpg.platform, rpg.storage. rewrite Htyping.
    cbn [rpg.store rpg.set_chat].
    now destruct (db.get_user (author (message ctx)) (rpg.store w)). }
  unfold rpg_cog.level. rewrite Hrun.
  now destruct (fst (db.get_user (author (message ctx)) (rpg.store w))).
Qed.

End level_facts.

Lemma level_replies_stored_level_witness :
  rpg_cog.level sample.level_command (sample.world (sample.stored 40 3) sample.steady)
  = (Returned tt,
     rpg.set_chat
       [ recording.Typing recording.general_channel;
         recording.Said (Some "You are currently level 3") None ]
       (rpg.record (rpg.StorageGetUser sample.alice) (sample.stored 40 3)
          (sample.world (sample.stored 40 3) sample.steady))).
Proof.
  exact (level_replies_stored_level sample.level_command
           (sample.world (sample.stored 40 3) sample.steady)
           [recording.Typing recording.general_channel] eq_refl).
Defined.

(* ===================================================================== *)
(** * A cancelled game stays cancelled                                    *)
(* ===================================================================== *)

Section cancel_frame.
Context {Chat BunkUser : Type} `{!Platform Chat BunkUser}.

(** X12: whatever the message and the outcome of the channel deletion,
    [is_cancel] never rebinds the game's channel and never clears the
    cancelled flag. *)
Theorem is_cancel_keeps_channel_and_flag
    (self : custom_game.CustomGame) (msg : Message) (c : Chat) :
  let self' := fst (snd (custom_game.is_cancel msg (self, c))) in
  custom_game.channel self' = custom_game.channel self
  /\ (custom_game.is_cancelled self = true -> custom_game.is_cancelled self' = true).
Proof.
  unfold custom_game.is_cancel.
  destruct (String.eqb _ _); [|cbn; auto].
  unfold bind, on_fst, modify, custom_game.cancel_game, on_snd.
  cbn [fst snd custom_game.channel].
  destruct (TextChannel_delete (custom_game.channel self) c) as [r c']. cbn. auto.
Qed.

End cancel_frame.

(* ===================================================================== *)
(** * The list of games                                                   *)
(* ===================================================================== *)

Lemma insert_last {A} (l : list A) (x y : A) :
  <[(length (l ++ [x])%list - 1)%nat := y]> (l ++ [x])%list = (l ++ [y])%list.
Proof.
  rewrite length_app. cbn [length].
  replace (length l + 1 - 1)%nat with (length l + 0)%nat by lia.
  now rewrite insert_app_r.
Qed.

Section games_facts.
Context {Game Chat BunkUser : Type}.
Context `{!Platform Chat BunkUser}.
Context `{!connectfour_cog.ConnectFourGame Game Chat BunkUser}.

(** X13: whatever the message and the outcome, [get_answer] keeps the
    number of games and every game but the first: only [games[0]] can
    change. *)
Theorem get_answer_touches_first_game_only (message : Message)
    (self : connectfour_cog.ConnectFourCog Game) (c : Chat) :
  let self' := fst (snd (connectfour_cog.get_answer message (self, c))) in
  length (connectfour_cog.games self') = length (connectfour_cog.games self)
  /\ forall i, (0 < i)%nat ->
       connectfour_cog.games self' !! i = connectfour_cog.games self !! i.
Proof.
  set (R := fun s s' : connectfour_cog.ConnectFourCog Game * Chat =>
              length (connectfour_cog.games (fst s'))
              = length (connectfour_cog.games (fst s))
              /\ forall i, (0 < i)%nat ->
                   connectfour_cog.games (fst s') !! i
                   = connectfour_cog.games (fst s) !! i).
  assert (Hrefl : forall s, R s s) by (split; auto).
  assert (Htrans : forall s1 s2 s3, R s1 s2 -> R s2 s3 -> R s1 s3).
  { intros s1 s2 s3 [Hl1 Hi1] [Hl2 Hi2]. split; [congruence|].
    intros i Hi. rewrite Hi2, Hi1 by assumption. reflexivity. }
  assert (Hsnd : forall A (m : M Chat A), frame.keeps R (on_snd m)).
  { intros A m s. unfold on_snd. destruct (m (snd s)). split; auto. }
  assert (Hgame : forall A game (m : M (Game * Chat) A),
            frame.keeps R (connectfour_cog.on_game 0 game m)).
  { intros A game m s. unfold connectfour_cog.on_game.
    destruct (m (game, snd s)) as [r [game' c']]. split; cbn.
    - apply length_insert.
    - intros i Hi. apply list_lookup_insert_ne. lia. }
  assert (Hkeeps : frame.keeps R (connectfour_cog.get_answer message)).
  { unfold connectfour_cog.get_answer.
    destruct (negb _); [|now apply keeps_ret].
    destruct (String.eqb _ _); [|now apply keeps_ret].
    apply keeps_bind; [assumption|apply Hsnd|intros user].
    apply keeps_bind; [assumption|apply Hsnd|intros _].
    apply keeps_bind; [assumption| |intros self0].
    { intros s. split; auto. }
    apply keeps_bind; [assumption|now apply keeps_getitem|intros game].
    apply Hgame. }
  exact (Hkeeps (self, c)).
Qed.

(** X14: whatever the outcome, the [connectfour] command keeps the games
    that were in the list, in their order, and adds at most one game at the
    end. *)
Theorem connectfour_only_appends (ctx : Context)
    (self : connectfour_cog.ConnectFourCog Game) (c : Chat) :
  exists new,
    connectfour_cog.games (fst (snd (connectfour_cog.connectfour ctx (self, c))))
    = (connectfour_cog.games self ++ new)%list
    /\ (length new <= 1)%nat.
Proof.
  assert (Hnone : exists new : list Game,
            connectfour_cog.games self = (connectfour_cog.games self ++ new)%list
            /\ (length new <= 1)%nat)
    by (exists []; rewrite app_nil_r; auto).
  unfold connectfour_cog.connectfour.
  unfold bind at 1, on_snd at 1. cbn [fst snd].
  destruct (Message_delete _ c) as [[[]|e] c1]; [|exact Hnone].
  unfold bind at 1, on_snd at 1. cbn [fst snd].
  destruct (users_get_by_id _ c1) as [[user|e] c2]; [|exact Hnone].
  unfold bind at 1, on_snd at 1. cbn [fst snd].
  destruct (create_game_channel "connect4" user c2) as [[[channel|]|e] c3];
    [|exact Hnone|exact Hnone].
  cbv zeta.
  unfold bind at 1, on_fst at 1, modify. cbn [fst snd connectfour_cog.games].
  unfold bind at 1, on_fst at 1, get. cbn [fst snd connectfour_cog.games].
  unfold connectfour_cog.on_game. cbn [fst snd connectfour_cog.games].
  destruct (connectfour_cog.start (connectfour_cog.new_game user channel, c3))
    as [r [game' c4]].
  cbn [fst snd connectfour_cog.games]. rewrite insert_last.
  exists [game']. auto.
Qed.

End games_facts.

(* ===================================================================== *)
(** * Refreshing the stream list                                          *)
(* ===================================================================== *)

Section refresh_facts.
Context {Chat BunkUser : Type} `{!Platform Chat BunkUser}.

Lemma tracker_kept_refl (s : twitch_cog.TwitchCog * (list db.FollowedStream * Chat)) :
  frame.tracker_kept s s.
Proof. repeat split; auto. Qed.

Lemma tracker_kept_trans
    (s1 s2 s3 : twitch_cog.TwitchCog * (list db.FollowedStream * Chat)) :
  frame.tracker_kept s1 s2 -> frame.tracker_kept s2 s3 -> frame.tracker_kept s1 s3.
Proof.
  intros (Ht1 & Hi1 & Hl1 & Hh1 & Hc1) (Ht2 & Hi2 & Hl2 & Hh2 & Hc2).
  repeat split; auto; congruence.
Qed.

Lemma keeps_tracker_bot {A} (op : M Chat A) :
  frame.keeps frame.tracker_kept (twitch_cog.bot_ op).
Proof.
  intros s. unfold twitch_cog.bot_, on_snd.
  destruct (op (snd (snd s))). repeat split; auto.
Qed.

Lemma keeps_tracker_self :
  frame.keeps (frame.tracker_kept (Chat:=Chat)) twitch_cog.self_.
Proof. intros s. repeat split; auto. Qed.

Lemma keeps_tracker_read {A} (f : list db.FollowedStream -> A) :
  frame.keeps (frame.tracker_kept (Chat:=Chat))
    (twitch_cog.database_streams (fun tbl => (f tbl, tbl))).
Proof. intros s. repeat split; auto. Qed.

Lemma keeps_tracker_list (m : Message) :
  frame.keeps (frame.tracker_kept (Chat:=Chat))
    (twitch_cog.assign (twitch_cog.set_msg_stream_list (Some m))).
Proof. intros s. repeat split; auto. Qed.

Lemma keeps_tracker_help (m : Message) :
  frame.keeps (frame.tracker_kept (Chat:=Chat))
    (twitch_cog.assign (twitch_cog.set_msg_help (Some m))).
Proof. intros s. repeat split; auto. Qed.

Lemma keeps_tracker_init :
  frame.keeps (frame.tracker_kept (Chat:=Chat))
    (twitch_cog.assign (twitch_cog.set_init_check false)).
Proof. intros s. repeat split; auto. Qed.

(** Asking for the live status of every stream changes neither the cog nor
    the collection. *)
Lemma stream_statuses_frame (stream_ids : list twitch.User)
    (self : twitch_cog.TwitchCog) (tbl : list db.FollowedStream) :
  forall c, exists r c',
    twitch_cog.stream_statuses stream_ids (self, (tbl, c)) = (r, (self, (tbl, c'))).
Proof.
  induction stream_ids as [|stream rest IH]; intros c.
  - exists (Returned []), c. reflexivity.
  - cbn [twitch_cog.stream_statuses].
    unfold bind at 1, twitch_cog.bot_ at 1, on_snd. cbn [fst snd].
    destruct (get_stream_by_user (twitch.user_id stream) c) as [[strm|e] c1];
      [|eauto].
    destruct (IH c1) as (r & c2 & Hrest).
    unfold bind. rewrite Hrest. destruct r; eauto.
Qed.

Lemma keeps_tracker_statuses (stream_ids : list twitch.User) :
  frame.keeps (frame.tracker_kept (Chat:=Chat)) (twitch_cog.stream_statuses stream_ids).
Proof.
  intros [self [tbl c]].
  destruct (stream_statuses_frame stream_ids self tbl c) as (r & c' & ->).
  repeat split; auto.
Qed.

Lemma keeps_tracker_update_stream_list :
  frame.keeps (frame.tracker_kept (Chat:=Chat)) twitch_cog.update_stream_list.
Proof.
  pose proof (@tracker_kept_refl) as Hrefl.
  pose proof (@tracker_kept_trans) as Htrans.
  unfold twitch_cog.update_stream_list.
  apply keeps_try_except; [assumption| |intros e; apply keeps_tracker_bot].
  apply keeps_bind; [assumption|apply keeps_tracker_bot|intros hour].
  destruct (_ && _); [|now apply keeps_ret].
  apply keeps_bind; [assumption|apply keeps_tracker_read|intros all_streams].
  cbv zeta.
  apply keeps_bind; [assumption|apply keeps_tracker_bot|intros stream_ids].
  apply keeps_bind; [assumption|apply keeps_tracker_statuses|intros statuses].
  apply keeps_bind; [assumption|apply keeps_tracker_self|intros self].
  apply keeps_bind; [assumption| |intros _].
  { destruct (negb _).
    - destruct (twitch_cog.init_check self).
      + apply keeps_bind; [assumption|apply keeps_tracker_init|intros _].
        apply keeps_bind; [assumption|apply keeps_tracker_bot|intros m].
        apply keeps_tracker_list.
      + apply keeps_bind; [assumption|apply keeps_tracker_bot|intros m].
        apply keeps_tracker_list.
    - apply keeps_bind; [assumption|apply keeps_tracker_bot|intros m].
      apply keeps_tracker_list. }
  apply keeps_bind; [assumption|apply keeps_tracker_self|intros self'].
  destruct (negb _).
  - apply keeps_bind; [assumption|apply keeps_tracker_bot|intros m].
    apply keeps_tracker_help.
  - apply keeps_bind; [assumption|apply keeps_tracker_bot|intros stamp].
    apply keeps_bind; [assumption|apply keeps_tracker_bot|intros m].
    apply keeps_tracker_help.
Qed.

(** X15: outside the hours 16 to 23 the refresh reads the clock and does
    nothing else: no message is posted or edited, the cog and the collection
    are as before. *)
Theorem update_stream_list_outside_hours (self : twitch_cog.TwitchCog)
    (tbl : list db.FollowedStream) (c c1 : Chat) (hour : Z) :
  datetime_now_hour c = (Returned hour, c1) ->
  hour < 16 \/ 23 < hour ->
  twitch_cog.update_stream_list (self, (tbl, c)) = (Returned tt, (self, (tbl, c1))).
Proof.
  intros Hnow Hout.
  unfold twitch_cog.update_stream_list, try_except.
  unfold bind at 1, twitch_cog.bot_ at 1, on_snd. cbn [fst snd]. rewrite Hnow.
  assert (Hhours : (hour <=? 23)%Z && (16 <=? hour)%Z = false).
  { apply andb_false_iff. destruct Hout; [right|left]; lia. }
  now rewrite Hhours.
Qed.

(** X16: whatever the hour and whatever the calls to the platform answer,
    a refresh leaves the collection of followed streams and the seen ids as
    they were, never forgets a status message it had, and never sets the
    first-run flag again. *)
Theorem update_stream_list_keeps (self : twitch_cog.TwitchCog)
    (tbl : list db.FollowedStream) (c : Chat) :
  let st' := snd (twitch_cog.update_stream_list (self, (tbl, c))) in
  fst (snd st') = tbl
  /\ twitch_cog.current_stream_ids (fst st') = twitch_cog.current_stream_ids self
  /\ (twitch_cog.msg_stream_list self <> None ->
      twitch_cog.msg_stream_list (fst st') <> None)
  /\ (twitch_cog.msg_help self <> None -> twitch_cog.msg_help (fst st') <> None)
  /\ (twitch_cog.init_check self = false -> twitch_cog.init_check (fst st') = false).
Proof.
  destruct (keeps_tracker_update_stream_list (self, (tbl, c)))
    as (Ht & Hi & Hl & Hh & Hc).
  cbn [fst snd] in *. repeat split; auto.
  - intros Hsome Hnone. rewrite Hnone in Hl.
    destruct (twitch_cog.msg_stream_list self); [|contradiction].
    specialize (Hl eq_refl). discriminate.
  - intros Hsome Hnone. rewrite Hnone in Hh.
    destruct (twitch_cog.msg_help self); [|contradiction].
    specialize (Hh eq_refl). discriminate.
Qed.

End refresh_facts.

Lemma update_stream_list_outside_hours_witness :
  twitch_cog.update_stream_list (Platform0 := recording.morning)
    (twitch_cog.__init__, (sample.roster, []))
  = (Returned tt, (twitch_cog.__init__, (sample.roster, []))).
Proof.
  refine (update_stream_list_outside_hours (Platform0 := recording.morning)
            twitch_cog.__init__ sample.roster [] [] 9 eq_refl _).
  left. reflexivity.
Defined.

Section render_facts.
Context {Chat BunkUser : Type} `{!Platform Chat BunkUser}.

(** X17: inside the hours 16 to 23 a refresh ends in one of two ways:
    either a failure of some call was handed to [handle_error] under the
    label "streams", or the refresh returns and both status messages exist
    afterwards. *)
Theorem update_stream_list_in_hours (self : twitch_cog.TwitchCog)
    (tbl : list db.FollowedStream) (c c1 : Chat) (hour : Z) :
  datetime_now_hour c = (Returned hour, c1) ->
  16 <= hour <= 23 ->
  (exists e st',
     twitch_cog.update_stream_list (self, (tbl, c))
     = twitch_cog.bot_ (handle_error e "streams") st')
  \/ (exists self' c' l h,
        twitch_cog.update_stream_list (self, (tbl, c)) = (Returned tt, (self', (tbl, c')))
        /\ twitch_cog.msg_stream_list self' = Some l
        /\ twitch_cog.msg_help self' = Some h).
Proof.
  intros Hnow Hin.
  assert (Hhours : (hour <=? 23)%Z && (16 <=? hour)%Z = true)
    by (apply andb_true_iff; split; lia).
  unfold twitch_cog.update_stream_list, try_except.
  match goal with
  | |- context [match ?b (self, (tbl, c)) with _ => _ end] =>
      destruct (b (self, (tbl, c))) as [[[]|e] st'] eqn:Hbody
  end; [right|left; eauto].
  unfold bind at 1, twitch_cog.bot_ at 1, on_snd in Hbody. cbn [fst snd] in Hbody.
  rewrite Hnow, Hhours in Hbody.
  unfold bind at 1, twitch_cog.database_streams at 1, on_snd, on_fst in Hbody.
  cbn [fst snd] in Hbody. cbv zeta in Hbody.
  unfold bind at 1, twitch_cog.bot_ at 1, on_snd in Hbody. cbn [fst snd] in Hbody.
  destruct (translate_usernames_to_ids _ c1) as [[stream_ids|e] c2];
    [|discriminate].
  unfold bind at 1 in Hbody.
  destruct (stream_statuses_frame stream_ids self tbl c2) as (r & c3 & Hst).
  rewrite Hst in Hbody. destruct r as [statuses|e]; [|discriminate].
  unfold bind at 1, twitch_cog.self_ at 1, on_fst, get in Hbody. cbn [fst snd] in Hbody.
  unfold bind at 1 in Hbody.
  match type of Hbody with
  | context [let (_, _) := ?m (self, (tbl, c3)) in _] =>
      assert (Hlist : exists r self1 c4 ,
                m (self, (tbl, c3)) = (r, (self1, (tbl, c4)))
                /\ (forall u, r = Returned u ->
                      exists l, twitch_cog.msg_stream_list self1 = Some l));
      [|destruct Hlist as (r & self1 & c4 & Hlist & Hl); rewrite Hlist in Hbody]
  end.
  { destruct (twitch_cog.msg_stream_list self) as [l0|]; cbn [truthy negb].
    - unfold bind, twitch_cog.bot_, on_snd. cbn [fst snd].
      destruct (edit_message _ _ _ c3) as [[m|e] c4]; cbn; eauto 8.
      do 3 eexists. split; [reflexivity|discriminate].
    - destruct (twitch_cog.init_check self).
      + unfold bind, twitch_cog.assign, twitch_cog.bot_, on_fst, on_snd, modify.
        cbn [fst snd].
        destruct (say_to_channel _ _ _ c3) as [[m|e] c4]; cbn; eauto 8.
        do 3 eexists. split; [reflexivity|discriminate].
      + unfold bind, twitch_cog.bot_, on_snd. cbn [fst snd].
        destruct (say _ _ c3) as [[m|e] c4]; cbn; eauto 8.
        do 3 eexists. split; [reflexivity|discriminate]. }
  destruct r as [[]|e]; [|discriminate].
  destruct (Hl tt eq_refl) as [l Hl1].
  cbv zeta in Hbody.
  unfold bind at 1, twitch_cog.self_ at 1, on_fst, get in Hbody. cbn [fst snd] in Hbody.
  destruct (twitch_cog.msg_help self1) as [h0|] eqn:Hh0; cbn [truthy negb] in Hbody.
  - unfold bind at 1, twitch_cog.bot_ at 1, on_snd in Hbody. cbn [fst snd] in Hbody.
    destruct (now c4) as [[stamp|e] c5]; [|discriminate].
    unfold bind at 1, twitch_cog.bot_ at 1, on_snd in Hbody. cbn [fst snd] in Hbody.
    destruct (edit_message _ _ _ c5) as [[m|e] c6]; [|discriminate].
    injection Hbody as <-.
    exists (twitch_cog.set_msg_help (Some m) self1), c6, l, m. auto.
  - unfold bind at 1, twitch_cog.bot_ at 1, on_snd in Hbody. cbn [fst snd] in Hbody.
    destruct (say_to_channel _ _ _ c4) as [[m|e] c5]; [|discriminate].
    injection Hbody as <-.
    exists (twitch_cog.set_msg_help (Some m) self1), c5, l, m. auto.
Qed.

(** X18: with both status messages in place, the listener and the purge
    check agree on every message of the tracker channel: the message is
    handed to [delete_message] exactly when the purge check answers [True]
    for it, and nothing at all happens otherwise. *)
Theorem rm_msg_agrees_with_purge_check (msg l h : Message)
    (self : twitch_cog.TwitchCog) (tbl : list db.FollowedStream) (c : Chat) :
  twitch_cog.msg_stream_list self = Some l ->
  twitch_cog.msg_help self = Some h ->
  channel_id (channel msg) = channel_id streams ->
  twitch_cog.rm_msg msg (self, (tbl, c))
  = if twitch_cog.rm_unwanted_messages_predicate self msg
    then twitch_cog.bot_ (delete_message msg) (self, (tbl, c))
    else (Returned tt, (self, (tbl, c))).
Proof.
  intros Hl Hh Hch. rewrite (rm_msg_tracked msg l h self tbl c Hl Hh Hch).
  unfold twitch_cog.rm_unwanted_messages_predicate. now rewrite Hl, Hh.
Qed.

End render_facts.

Lemma update_stream_list_in_hours_witness :
  (exists e st',
     twitch_cog.update_stream_list (twitch_cog.__init__, (sample.roster, []))
     = twitch_cog.bot_ (handle_error e "streams") st')
  \/ (exists self' c' l h,
        twitch_cog.update_stream_list (twitch_cog.__init__, (sample.roster, []))
        = (Returned tt, (self', (sample.roster, c')))
        /\ twitch_cog.msg_stream_list self' = Some l
        /\ twitch_cog.msg_help self' = Some h).
Proof.
  apply (update_stream_list_in_hours twitch_cog.__init__ sample.roster [] [] 20).
  - reflexivity.
  - lia.
Defined.

Lemma rm_msg_agrees_with_purge_check_witness :
  twitch_cog.rm_msg sample.chatter (sample.tracker, ([], []))
  = twitch_cog.bot_ (delete_message sample.chatter) (sample.tracker, ([], [])).
Proof.
  exact (rm_msg_agrees_with_purge_check sample.chatter sample.listing sample.help
           sample.tracker [] [] eq_refl eq_refl eq_refl).
Defined.

(** On the recording platform the first refresh in the evening posts both
    status messages and clears the first-run flag. *)
Lemma update_stream_list_first_render_sample :
  let '(r, (self, (tbl, log))) :=
    twitch_cog.update_stream_list (twitch_cog.__init__, (sample.roster, [])) in
  r = Returned tt
  /\ truthy (twitch_cog.msg_stream_list self) = true
  /\ truthy (twitch_cog.msg_help self) = true
  /\ twitch_cog.init_check self = false
  /\ length log = 2%nat.
Proof. vm_compute. repeat split; reflexivity. Qed.

(* ===================================================================== *)
(** * Registering a stream: every way the command can end                 *)
(* ===================================================================== *)

(** No segment of a split contains the separator. *)
Lemma split_no_sep (sep : ascii) (s : string) :
  forall seg, In seg (split sep s) ->
  forall ch, In ch (list_ascii_of_string seg) -> ch <> sep.
Proof.
  induction s as [|c rest IH]; intros seg Hin ch Hch.
  - cbn in Hin. destruct Hin as [<-|[]]. destruct Hch.
  - cbn [split] in Hin. destruct (Ascii.eqb_spec c sep) as [->|Hne].
    + destruct Hin as [<-|Hin]; [destruct Hch|]. now apply (IH seg).
    + destruct (split sep rest) as [|seg0 segs] eqn:Hsplit.
      * destruct Hin as [<-|[]]. cbn in Hch. destruct Hch as [<-|[]]. exact Hne.
      * destruct Hin as [<-|Hin].
        -- cbn in Hch. destruct Hch as [<-|Hch]; [exact Hne|].
           apply (IH seg0); [now left|exact Hch].
        -- apply (IH seg); [now right|exact Hch].
Qed.

Lemma find_app_none {A} (f : A -> bool) (l l' : list A) :
  List.find f l = None -> List.find f (l ++ l')%list = List.find f l'.
Proof.
  induction l as [|x l IH]; [reflexivity|].
  cbn. destruct (f x); [discriminate|exact IH].
Qed.

Section stream_outcomes.
Context {Chat BunkUser : Type} `{!Platform Chat BunkUser}.

(** What the handlers of the command do after the body: they talk to the
    platform only. *)
Lemma stream_handlers_frame (ctx : Context) (e : exn)
    (st : twitch_cog.TwitchCog * (list db.FollowedStream * Chat)) :
  fst (snd (snd (
    match e with
    | BunkException message =>
        if negb (channel_id (channel (discord.message ctx)) =? channel_id streams)%Z
        then bind (twitch_cog.bot_ (say (Some message) None)) (fun _ => ret tt)
        else ret tt
    | e => twitch_cog.bot_ (handle_error e "stream")
    end st))) = fst (snd st).
Proof.
  destruct e; unfold twitch_cog.bot_, bind, on_snd, ret; cbn [fst snd];
    try (now destruct (handle_error _ _ (snd (snd st)))).
  destruct (negb _); [|reflexivity].
  now destruct (say _ _ (snd (snd st))) as [[?|?] ?].
Qed.

(** The table after the command is the table after its body. *)
Lemma stream_table_is_body_table (ctx : Context)
    (st : twitch_cog.TwitchCog * (list db.FollowedStream * Chat)) :
  fst (snd (snd (twitch_cog.stream ctx st)))
  = fst (snd (snd (twitch_cog.stream_body ctx st))).
Proof.
  unfold twitch_cog.stream, try_except.
  destruct (twitch_cog.stream_body ctx st) as [[[]|e] st1]; [reflexivity|].
  apply stream_handlers_frame.
Qed.

(** The body either leaves the collection as it is, or appends one record
    for a name that no record carried: the last segment of the first
    argument, registered under the author's name. *)
Lemma stream_body_table_cases (ctx : Context) (self : twitch_cog.TwitchCog)
    (tbl : list db.FollowedStream) (c : Chat) :
  fst (snd (snd (twitch_cog.stream_body ctx (self, (tbl, c))))) = tbl
  \/ exists param rest sname,
       get_cmd_params ctx = param :: rest
       /\ split "/" param !! (length (split "/" param) - 1)%nat = Some sname
       /\ db.streams_get sname tbl = None
       /\ fst (snd (snd (twitch_cog.stream_body ctx (self, (tbl, c)))))
          = (tbl ++ [ {| db.name := sname;
                         db.added_by := discord.name (author (message ctx)) |} ])%list.
Proof.
  destruct (twitch_cog.stream_body ctx (self, (tbl, c))) as [r st1] eqn:Hbody.
  cbn [fst snd].
  unfold twitch_cog.stream_body in Hbody.
  unfold bind at 1, twitch_cog.bot_ at 1, on_snd in Hbody. cbn [fst snd] in Hbody.
  destruct (send_typing _ c) as [[[]|e] c1];
    [|injection Hbody as <- <-; now left].
  unfold bind at 1, twitch_cog.self_ at 1, on_fst, get in Hbody. cbn [fst snd] in Hbody.
  unfold bind at 1, twitch_cog.bot_ at 1, on_snd in Hbody. cbn [fst snd] in Hbody.
  destruct (edit_message _ _ _ c1) as [[m1|e] c2];
    [|injection Hbody as <- <-; now left].
  unfold bind at 1, twitch_cog.assign at 1, on_fst, modify in Hbody.
  cbn [fst snd] in Hbody.
  destruct (get_cmd_params ctx) as [|param rest] eqn:Hparams;
    [injection Hbody as <- <-; now left|].
  cbn [length Nat.eqb] in Hbody. cbv zeta in Hbody.
  unfold bind at 1, getitem at 1 in Hbody. cbn [lookup list_lookup] in Hbody.
  unfold ret at 1 in Hbody.
  unfold bind at 1, getitem at 1 in Hbody.
  destruct (split "/" param !! (length (split "/" param) - 1)%nat) as [sname|] eqn:Hname;
    [|injection Hbody as <- <-; now left].
  unfold ret at 1 in Hbody.
  unfold bind at 1, twitch_cog.database_streams at 1, on_snd, on_fst in Hbody.
  cbn [fst snd] in Hbody.
  destruct (db.streams_get sname tbl) as [found|] eqn:Hfind.
  { unfold bind at 1, twitch_cog.self_ at 1, on_fst, get in Hbody.
    cbn [fst snd] in Hbody.
    unfold bind at 1, twitch_cog.bot_ at 1, on_snd in Hbody. cbn [fst snd] in Hbody.
    destruct (edit_message _ _ _ c2) as [[m2|e] c3];
      injection Hbody as <- <-; now left. }
  unfold bind at 1, twitch_cog.bot_ at 1, on_snd in Hbody. cbn [fst snd] in Hbody.
  destruct (translate_usernames_to_ids [sname] c2) as [[stream_ids|e] c3];
    [|injection Hbody as <- <-; now left].
  destruct stream_ids as [|first others];
    [injection Hbody as <- <-; now left|].
  cbn [length Nat.eqb] in Hbody.
  unfold bind at 1, twitch_cog.database_streams at 1, on_snd, on_fst in Hbody.
  cbn [fst snd] in Hbody.
  right. exists param, rest, sname. repeat split; auto.
  match type of Hbody with
  | ?m ?s = _ =>
      assert (Hk : frame.keeps frame.tracker_kept m); [|specialize (Hk s)]
  end.
  { pose proof (@tracker_kept_refl Chat) as Hrefl.
    pose proof (@tracker_kept_trans Chat) as Htrans.
    apply keeps_bind; [assumption|now apply keeps_getitem|intros first'].
    apply keeps_bind; [assumption|apply keeps_tracker_bot|intros strm].
    cbv zeta.
    apply keeps_bind; [assumption| |intros _; apply keeps_tracker_update_stream_list].
    destruct strm; destruct (negb _);
      try (now apply keeps_ret);
      (apply keeps_bind; [assumption|apply keeps_tracker_bot|intros _; now apply keeps_ret]). }
  rewrite Hbody in Hk. destruct Hk as [Htbl _]. exact Htbl.
Qed.

(** X19: whatever the argument and whatever the platform answers, the
    [stream] command keeps every record of the collection in place and
    adds at most one record, at the end. *)
Theorem stream_only_appends (ctx : Context) (self : twitch_cog.TwitchCog)
    (tbl : list db.FollowedStream) (c : Chat) :
  exists new,
    fst (snd (snd (twitch_cog.stream ctx (self, (tbl, c))))) = (tbl ++ new)%list
    /\ (length new <= 1)%nat.
Proof.
  rewrite stream_table_is_body_table.
  destruct (stream_body_table_cases ctx self tbl c)
    as [->|(param & rest & sname & _ & _ & _ & ->)].
  - exists []. rewrite app_nil_r. auto.
  - eexists [_]. auto.
Qed.

(** X20: the [stream] command keeps the names of the collection unique: if
    no two records carry the same name before the command, none do after
    it, whatever the argument and whatever the platform answers. *)
Theorem stream_keeps_names_unique (ctx : Context) (self : twitch_cog.TwitchCog)
    (tbl : list db.FollowedStream) (c : Chat) :
  List.NoDup (List.map db.name tbl) ->
  List.NoDup (List.map db.name
                (fst (snd (snd (twitch_cog.stream ctx (self, (tbl, c))))))).
Proof.
  intros Hnodup. rewrite stream_table_is_body_table.
  destruct (stream_body_table_cases ctx self tbl c)
    as [->|(param & rest & sname & _ & _ & Hfind & ->)]; [exact Hnodup|].
  rewrite List.map_app. cbn [List.map db.name].
  apply NoDup_ListNoDup. apply NoDup_ListNoDup in Hnodup.
  apply NoDup_app. split; [exact Hnodup|]. split; [|apply NoDup_singleton].
  intros name Hin Hnew. apply list_elem_of_singleton in Hnew. subst name.
  apply list_elem_of_In, List.in_map_iff in Hin as (s & Hname & Hin).
  assert (Hpresent : exists s, db.streams_get sname tbl = Some s)
    by (apply streams_get_present; eauto).
  destruct Hpresent as [s' Hs']. congruence.
Qed.

(** X21: a record that the [stream] command adds carries a name without
    any "/": of a URL only the last path segment is registered. *)
Theorem stream_registers_last_segment (ctx : Context) (self : twitch_cog.TwitchCog)
    (tbl : list db.FollowedStream) (c : Chat) (s : db.FollowedStream) :
  In s (fst (snd (snd (twitch_cog.stream ctx (self, (tbl, c)))))) ->
  ~ In s tbl ->
  forallb (fun ch => negb (Ascii.eqb ch "/")) (list_ascii_of_string (db.name s)) = true.
Proof.
  rewrite stream_table_is_body_table.
  destruct (stream_body_table_cases ctx self tbl c)
    as [->|(param & rest & sname & _ & Hname & _ & ->)]; [contradiction|].
  intros Hin Hold. apply List.in_app_or in Hin as [Hin|[<-|[]]]; [contradiction|].
  cbn [db.name]. apply forallb_forall. intros ch Hch.
  apply negb_true_iff, Ascii.eqb_neq. apply (split_no_sep "/" param sname); [|exact Hch].
  apply list_elem_of_In. eapply list_elem_of_lookup_2. exact Hname.
Qed.

(** X22: without an argument the body of the command raises the "Enter a
    stream name" [BunkException] right after the edit of the help message
    to "Updating..."; the collection is untouched and the help message is
    left at that text. *)
Theorem stream_without_argument (ctx : Context) (self : twitch_cog.TwitchCog)
    (tbl : list db.FollowedStream) (c c1 c2 : Chat) (m1 : Message) :
  get_cmd_params ctx = [] ->
  send_typing (channel (message ctx)) c = (Returned tt, c1) ->
  edit_message (twitch_cog.msg_help self) (Some "Updating...") None c1
  = (Returned m1, c2) ->
  twitch_cog.stream_body ctx (self, (tbl, c))
  = (Raised (BunkException "Enter a stream name"),
     (twitch_cog.set_msg_help (Some m1) self, (tbl, c2))).
Proof.
  intros Hparams Htyping Hedit.
  unfold twitch_cog.stream_body.
  unfold bind at 1, twitch_cog.bot_ at 1, on_snd. cbn [fst snd]. rewrite Htyping.
  unfold bind at 1, twitch_cog.self_ at 1, on_fst, get. cbn [fst snd].
  unfold bind at 1, twitch_cog.bot_ at 1, on_snd. cbn [fst snd]. rewrite Hedit.
  unfold bind at 1, twitch_cog.assign at 1, on_fst, modify. cbn [fst snd].
  rewrite Hparams. reflexivity.
Qed.

(** X23: a name that no record carries and that the streaming platform
    cannot resolve makes the body raise the "Cannot find stream"
    [BunkException]; nothing is inserted and the help message is left at
    "Updating...". *)
Theorem stream_unresolvable_name (ctx : Context) (self : twitch_cog.TwitchCog)
    (tbl : list db.FollowedStream) (c c1 c2 c3 : Chat)
    (param sname : string) (rest : list string) (m1 : Message) :
  get_cmd_params ctx = param :: rest ->
  split "/" param !! (length (split "/" param) - 1)%nat = Some sname ->
  db.streams_get sname tbl = None ->
  send_typing (channel (message ctx)) c = (Returned tt, c1) ->
  edit_message (twitch_cog.msg_help self) (Some "Updating...") None c1
  = (Returned m1, c2) ->
  translate_usernames_to_ids [sname] c2 = (Returned [], c3) ->
  twitch_cog.stream_body ctx (self, (tbl, c))
  = (Raised (BunkException ("Cannot find stream '" ++ sname ++ "'")),
     (twitch_cog.set_msg_help (Some m1) self, (tbl, c3))).
Proof.
  intros Hparams Hname Hfind Htyping Hedit Hresolve.
  unfold twitch_cog.stream_body.
  unfold bind at 1, twitch_cog.bot_ at 1, on_snd. cbn [fst snd]. rewrite Htyping.
  unfold bind at 1, twitch_cog.self_ at 1, on_fst, get. cbn [fst snd].
  unfold bind at 1, twitch_cog.bot_ at 1, on_snd. cbn [fst snd]. rewrite Hedit.
  unfold bind at 1, twitch_cog.assign at 1, on_fst, modify. cbn [fst snd].
  rewrite Hparams. cbn [length Nat.eqb].
  unfold bind at 1, getitem at 1. cbn [lookup list_lookup]. unfold ret at 1.
  unfold bind at 1, getitem at 1. rewrite Hname. unfold ret at 1.
  unfold bind at 1, twitch_cog.database_streams at 1, on_snd, on_fst.
  cbn [fst snd]. rewrite Hfind.
  unfold bind at 1, twitch_cog.bot_ at 1, on_snd. cbn [fst snd]. rewrite Hresolve.
  reflexivity.
Qed.

(** X24: a name that no record carries and that the streaming platform
    resolves is inserted, under the author's name, once the calls up to the
    insert have returned; whatever the later calls answer, the record stays,
    and looking the name up afterwards finds it. *)
Theorem stream_inserts_and_finds (ctx : Context) (self : twitch_cog.TwitchCog)
    (tbl : list db.FollowedStream) (c c1 c2 c3 : Chat)
    (param sname : string) (rest : list string) (m1 : Message)
    (first : twitch.User) (others : list twitch.User) :
  get_cmd_params ctx = param :: rest ->
  split "/" param !! (length (split "/" param) - 1)%nat = Some sname ->
  db.streams_get sname tbl = None ->
  send_typing (channel (message ctx)) c = (Returned tt, c1) ->
  edit_message (twitch_cog.msg_help self) (Some "Updating...") None c1
  = (Returned m1, c2) ->
  translate_usernames_to_ids [sname] c2 = (Returned (first :: others), c3) ->
  let record := {| db.name := sname;
                   db.added_by := discord.name (author (message ctx)) |} in
  let tbl' := fst (snd (snd (twitch_cog.stream ctx (self, (tbl, c))))) in
  tbl' = (tbl ++ [record])%list
  /\ db.streams_get sname tbl' = Some record.
Proof.
  intros Hparams Hname Hfind Htyping Hedit Hresolve record tbl'.
  assert (Htbl : tbl' = (tbl ++ [record])%list).
  { subst tbl'. rewrite stream_table_is_body_table.
    destruct (stream_body_table_cases ctx self tbl c)
      as [Hsame|(param' & rest' & sname' & Hp & Hn & _ & ->)].
    - exfalso. revert Hsame.
      unfold twitch_cog.stream_body.
      unfold bind at 1, twitch_cog.bot_ at 1, on_snd. cbn [fst snd]. rewrite Htyping.
      unfold bind at 1, twitch_cog.self_ at 1, on_fst, get. cbn [fst snd].
      unfold bind at 1, twitch_cog.bot_ at 1, on_snd. cbn [fst snd]. rewrite Hedit.
      unfold bind at 1, twitch_cog.assign at 1, on_fst, modify. cbn [fst snd].
      rewrite Hparams. cbn [length Nat.eqb].
      unfold bind at 1, getitem at 1. cbn [lookup list_lookup]. unfold ret at 1.
      unfold bind at 1, getitem at 1. rewrite Hname. unfold ret at 1.
      unfold bind at 1, twitch_cog.database_streams at 1, on_snd, on_fst.
      cbn [fst snd]. rewrite Hfind.
      unfold bind at 1, twitch_cog.bot_ at 1, on_snd. cbn [fst snd]. rewrite Hresolve.
      cbn [length Nat.eqb].
      unfold bind at 1, twitch_cog.database_streams at 1, on_snd, on_fst.
      cbn [fst snd].
      match goal with
      | |- fst (snd (snd (?m ?s))) = _ -> _ =>
          assert (Hk : frame.keeps frame.tracker_kept m); [|specialize (Hk s)]
      end.
      { pose proof (@tracker_kept_refl Chat) as Hrefl.
        pose proof (@tracker_kept_trans Chat) as Htrans.
        apply keeps_bind; [assumption|now apply keeps_getitem|intros first'].
        apply keeps_bind; [assumption|apply keeps_tracker_bot|intros strm].
        cbv zeta.
        apply keeps_bind;
          [assumption| |intros _; apply keeps_tracker_update_stream_list].
        destruct strm; destruct (negb _);
          try (now apply keeps_ret);
          (apply keeps_bind;
           [assumption|apply keeps_tracker_bot|intros _; now apply keeps_ret]). }
      destruct Hk as [Hk _]. cbn [fst snd] in Hk. rewrite Hk.
      intros Habs. unfold db.streams_insert in Habs.
      apply (f_equal (@length _)) in Habs.
      rewrite length_app in Habs. cbn in Habs. lia.
    - rewrite Hparams in Hp. injection Hp as <- <-.
      rewrite Hname in Hn. injection Hn as <-. reflexivity. }
  split; [exact Htbl|].
  rewrite Htbl. unfold db.streams_get in *.
  rewrite find_app_none by exact Hfind. cbn. now rewrite String.eqb_refl.
Qed.

End stream_outcomes.

Lemma stream_keeps_names_unique_witness :
  List.NoDup (List.map db.name
                (fst (snd (snd (twitch_cog.stream sample.stream_command
                                  (sample.tracker, (sample.roster, []))))))).
Proof.
  apply (stream_keeps_names_unique sample.stream_command sample.tracker
           sample.roster []).
  constructor; [intros []|constructor].
Defined.

Lemma stream_registers_last_segment_witness :
  forallb (fun ch => negb (Ascii.eqb ch "/")) (list_ascii_of_string "shroud") = true.
Proof.
  apply (stream_registers_last_segment sample.stream_command sample.tracker [] []
           {| db.name := "shroud"; db.added_by := "alice" |}).
  - vm_compute. left. reflexivity.
  - intros [].
Defined.

Lemma stream_without_argument_witness :
  twitch_cog.stream_body sample.bare_stream_command (sample.tracker, (sample.roster, []))
  = (Raised (BunkException "Enter a stream name"),
     (twitch_cog.set_msg_help
        (Some {| id := 2; content := "Updating..."; author := recording.bunkbot;
                 channel := recording.streams_channel |}) sample.tracker,
      (sample.roster,
       [ recording.Typing recording.general_channel;
         recording.Edited sample.help (Some "Updating...") None ]))).
Proof.
  exact (stream_without_argument sample.bare_stream_command sample.tracker
           sample.roster [] _ _ _ eq_refl eq_refl eq_refl).
Defined.

Lemma stream_unresolvable_name_witness :
  twitch_cog.stream_body (Platform0 := recording.unknown_names)
    sample.stream_command (sample.tracker, ([], []))
  = (Raised (BunkException "Cannot find stream 'shroud'"),
     (twitch_cog.set_msg_help
        (Some {| id := 2; content := "Updating..."; author := recording.bunkbot;
                 channel := recording.streams_channel |}) sample.tracker,
      ([],
       [ recording.Typing recording.general_channel;
         recording.Edited sample.help (Some "Updating...") None ]))).
Proof.
  exact (stream_unresolvable_name (Platform0 := recording.unknown_names)
           sample.stream_command sample.tracker [] [] _ _ _
           "https://twitch.tv/shroud" "shroud" [] _
           eq_refl eq_refl eq_refl eq_refl eq_refl eq_refl).
Defined.

Lemma stream_inserts_and_finds_witness :
  fst (snd (snd (twitch_cog.stream sample.stream_command (sample.tracker, ([], [])))))
  = [ {| db.name := "shroud"; db.added_by := "alice" |} ]
  /\ db.streams_get "shroud"
       (fst (snd (snd (twitch_cog.stream sample.stream_command
                         (sample.tracker, ([], []))))))
     = Some {| db.name := "shroud"; db.added_by := "alice" |}.
Proof.
  exact (stream_inserts_and_finds sample.stream_command sample.tracker [] [] _ _ _
           "https://twitch.tv/shroud" "shroud" [] _ _ _
           eq_refl eq_refl eq_refl eq_refl eq_refl eq_refl).
Defined.

(* ===================================================================== *)
(** * Wiring the tracker at start-up                                      *)
(* ===================================================================== *)

Section wiring_facts.
Context {Chat BunkUser : Type} `{!Platform Chat BunkUser}.
Context `{!Housekeeping Chat
             (M (twitch_cog.TwitchCog * (list db.FollowedStream * Chat)) unit)}.

(** A refresh lets no exception escape as long as [handle_error] returns. *)
Lemma update_stream_list_returns
    (st : twitch_cog.TwitchCog * (list db.FollowedStream * Chat)) :
  (forall e label c, exists c', handle_error e label c = (Returned tt, c')) ->
  fst (twitch_cog.update_stream_list st) = Returned tt.
Proof.
  intros Hsink. unfold twitch_cog.update_stream_list, try_except.
  match goal with
  | |- context [match ?b st with _ => _ end] => destruct (b st) as [[[]|e] st1]
  end; [reflexivity|].
  unfold twitch_cog.bot_, on_snd. cbn [fst snd].
  destruct (Hsink e "streams" (snd (snd st1))) as [c' ->]. reflexivity.
Qed.

(** X25: when the purge of the first run raises, the listener hands the
    failure to [handle_error] under the label "wire_stream_listener" and
    does nothing else: the stream list is not rendered and the hourly job
    is not scheduled. *)
Theorem wire_stream_listener_purge_fails (self : twitch_cog.TwitchCog)
    (tbl : list db.FollowedStream) (c c1 : Chat) (e : exn) :
  twitch_cog.init_check self = true ->
  bot_purge_from streams (twitch_cog.rm_unwanted_messages_predicate self) c
  = (Raised e, c1) ->
  twitch_cog.wire_stream_listener (self, (tbl, c))
  = twitch_cog.bot_ (handle_error e "wire_stream_listener") (self, (tbl, c1)).
Proof.
  intros Hinit Hpurge.
  unfold twitch_cog.wire_stream_listener, try_except.
  unfold bind at 1, twitch_cog.self_ at 1, on_fst, get. cbn [fst snd].
  rewrite Hinit.
  unfold bind at 1, twitch_cog.bot_ at 1, on_snd. cbn [fst snd].
  now rewrite Hpurge.
Qed.

(** X26: when the purge, if it is due, returns and [handle_error] always
    returns, the listener reaches the scheduler whatever happens during the
    first refresh: the hourly job is registered with the trigger "interval"
    and 60 minutes, on a collection that is still the same. *)
Theorem wire_stream_listener_schedules (self : twitch_cog.TwitchCog)
    (tbl : list db.FollowedStream) (c c1 : Chat) :
  (if twitch_cog.init_check self
   then bot_purge_from streams (twitch_cog.rm_unwanted_messages_predicate self) c
   else ret tt c) = (Returned tt, c1) ->
  (forall e label c, exists c', handle_error e label c = (Returned tt, c')) ->
  exists self' c2,
    twitch_cog.update_stream_list (self, (tbl, c1)) = (Returned tt, (self', (tbl, c2)))
    /\ twitch_cog.wire_stream_listener (self, (tbl, c))
       = try_except
           (twitch_cog.bot_ (add_job twitch_cog.update_stream_list "interval" 60))
           (fun e => twitch_cog.bot_ (handle_error e "wire_stream_listener"))
           (self', (tbl, c2)).
Proof.
  intros Hpurge Hsink.
  pose proof (update_stream_list_returns (self, (tbl, c1)) Hsink) as Hret.
  pose proof (keeps_tracker_update_stream_list (self, (tbl, c1))) as [Htbl _].
  destruct (twitch_cog.update_stream_list (self, (tbl, c1)))
    as [r [self' [tbl' c2]]] eqn:Hrefresh.
  cbn [fst snd] in Hret, Htbl. subst r tbl'.
  exists self', c2. split; [reflexivity|].
  unfold twitch_cog.wire_stream_listener, try_except.
  unfold bind at 1, twitch_cog.self_ at 1, on_fst, get. cbn [fst snd].
  unfold bind at 1.
  assert (Hdue :
    (if twitch_cog.init_check self
     then twitch_cog.bot_
            (bot_purge_from streams (twitch_cog.rm_unwanted_messages_predicate self))
     else ret tt) (self, (tbl, c)) = (Returned tt, (self, (tbl, c1)))).
  { destruct (twitch_cog.init_check self).
    - unfold twitch_cog.bot_, on_snd. cbn [fst snd]. now rewrite Hpurge.
    - unfold ret in *. now injection Hpurge as <-. }
  rewrite Hdue. unfold bind at 1. rewrite Hrefresh.
  reflexivity.
Qed.

(** X27: the [streams] command lets a failing typing indicator escape
    without attempting a refresh; once the indicator is shown, and as long
    as [handle_error] returns, the command returns whatever the refresh runs
    into. *)
Theorem streams_command_outcome (ctx : Context) (self : twitch_cog.TwitchCog)
    (tbl : list db.FollowedStream) (c c1 : Chat) :
  (forall e, send_typing (channel (message ctx)) c = (Raised e, c1) ->
             twitch_cog.streams_command ctx (self, (tbl, c))
             = (Raised e, (self, (tbl, c1))))
  /\ (send_typing (channel (message ctx)) c = (Returned tt, c1) ->
      (forall e label c, exists c', handle_error e label c = (Returned tt, c')) ->
      twitch_cog.streams_command ctx (self, (tbl, c))
      = twitch_cog.update_stream_list (self, (tbl, c1))
      /\ fst (twitch_cog.streams_command ctx (self, (tbl, c))) = Returned tt).
Proof.
  assert (Hstep : forall r,
    send_typing (channel (message ctx)) c = (r, c1) ->
    twitch_cog.streams_command ctx (self, (tbl, c))
    = match r with
      | Returned _ => twitch_cog.update_stream_list (self, (tbl, c1))
      | Raised e => (Raised e, (self, (tbl, c1)))
      end).
  { intros r Htyping. unfold twitch_cog.streams_command, bind, twitch_cog.bot_, on_snd.
    cbn [fst snd]. now rewrite Htyping. }
  split.
  - intros e Htyping. exact (Hstep _ Htyping).
  - intros Htyping Hsink. rewrite (Hstep _ Htyping).
    split; [reflexivity|now apply update_stream_list_returns].
Qed.

End wiring_facts.

Lemma recording_handle_error_returns (e : exn) (label : string) (c : recording.Chat) :
  exists c', handle_error e label c = (Returned tt, c').
Proof. eexists. reflexivity. Qed.

Lemma wire_stream_listener_purge_fails_witness :
  twitch_cog.wire_stream_listener (Housekeeping0 := recording.failing_purge)
    (twitch_cog.__init__, (sample.roster, []))
  = (Returned tt,
     (twitch_cog.__init__,
      (sample.roster,
       [recording.Reported (Exception "purge refused") "wire_stream_listener"]))).
Proof.
  exact (wire_stream_listener_purge_fails (Housekeeping0 := recording.failing_purge)
           twitch_cog.__init__ sample.roster [] [] (Exception "purge refused")
           eq_refl eq_refl).
Defined.

Lemma wire_stream_listener_schedules_witness :
  exists self' c2,
    twitch_cog.update_stream_list (twitch_cog.__init__, (sample.roster, []))
    = (Returned tt, (self', (sample.roster, c2)))
    /\ twitch_cog.wire_stream_listener (Housekeeping0 := recording.housekeeping)
         (twitch_cog.__init__, (sample.roster, []))
       = try_except
           (twitch_cog.bot_
              (add_job (Housekeeping := recording.housekeeping)
                 twitch_cog.update_stream_list "interval" 60))
           (fun e => twitch_cog.bot_ (handle_error e "wire_stream_listener"))
           (self', (sample.roster, c2)).
Proof.
  apply (wire_stream_listener_schedules (Housekeeping0 := recording.housekeeping)
           twitch_cog.__init__ sample.roster [] []).
  - reflexivity.
  - apply recording_handle_error_returns.
Defined.

(* ===================================================================== *)
(** * Starting a game, and a first message in duel mode                   *)
(* ===================================================================== *)

Section new_game_facts.
Context {Game Chat BunkUser : Type}.
Context `{!Platform Chat BunkUser}.
Context `{!connectfour_cog.ConnectFourGame Game Chat BunkUser}.

(** X28: once the command message is deleted and the author resolved, the
    [connectfour] command adds no game when the channel service answers
    with no channel; when it answers with a channel, the new game is put at
    the end of the list in the state its [start] leaves it in, whether
    [start] returns or raises, so the list is not empty afterwards. *)
Theorem connectfour_adds_a_game (ctx : Context)
    (self : connectfour_cog.ConnectFourCog Game) (c c1 c2 c3 : Chat)
    (user : BunkUser) (channel : option TextChannel) :
  Message_delete (message ctx) c = (Returned tt, c1) ->
  users_get_by_id (member_id (author (message ctx))) c1 = (Returned user, c2) ->
  create_game_channel "connect4" user c2 = (Returned channel, c3) ->
  match channel with
  | None => connectfour_cog.connectfour ctx (self, c) = (Returned tt, (self, c3))
  | Some channel =>
      let '(r, (game, c4)) :=
        connectfour_cog.start (connectfour_cog.new_game user channel, c3) in
      connectfour_cog.connectfour ctx (self, c)
      = (r, ({| connectfour_cog.games := (connectfour_cog.games self ++ [game])%list |},
             c4))
  end.
Proof.
  intros Hdelete Huser Hchannel.
  assert (Hrun : forall k,
    bind (on_snd (Message_delete (message ctx)))
      (fun _ => bind (on_snd (users_get_by_id (member_id (author (message ctx)))))
                  (fun user => bind (on_snd (create_game_channel "connect4" user))
                                 (k user))) (self, c)
    = k user channel (self, c3) :> outcome unit * (connectfour_cog.ConnectFourCog Game * Chat)).
  { intros k. unfold bind, on_snd. cbn [fst snd].
    rewrite Hdelete. cbn [fst snd]. rewrite Huser. cbn [fst snd].
    now rewrite Hchannel. }
  unfold connectfour_cog.connectfour. rewrite Hrun.
  destruct channel as [channel|]; [|reflexivity].
  cbv zeta.
  unfold bind at 1, on_fst at 1, modify. cbn [fst snd connectfour_cog.games].
  unfold bind at 1, on_fst at 1, get. cbn [fst snd connectfour_cog.games].
  unfold connectfour_cog.on_game. cbn [fst snd connectfour_cog.games].
  destruct (connectfour_cog.start (connectfour_cog.new_game user channel, c3))
    as [r [game' c4]].
  now rewrite insert_last.
Qed.

End new_game_facts.

Lemma connectfour_adds_a_game_witness :
  connectfour_cog.connectfour sample.stream_command
    (connectfour_cog.__init__ : connectfour_cog.ConnectFourCog (list string), [])
  = (Returned tt,
     ({| connectfour_cog.games := [ [] ] |},
      [ recording.MessageDeleted (message sample.stream_command);
        recording.ChannelCreated "connect4" 7 ])).
Proof.
  exact (connectfour_adds_a_game sample.stream_command connectfour_cog.__init__
           [] _ _ _ 7 (Some {| channel_id := 107; channel_name := "connect4" |})
           eq_refl eq_refl eq_refl).
Defined.

Section first_duel_facts.
Context {DB Chat : Type} `{!db.Database DB}.

(** X29: the first call for a member, made in [duel] mode and not leveling
    them up, hands the value to storage at once and also starts the new
    window with that same value. *)
Theorem update_user_xp_fresh_duel (member : Member) (value : Q)
    (self : rpg.RPG DB Chat) (w : rpg.World DB Chat)
    (new_user : db.UserDoc) (d1 : DB) :
  rpg.config self !! discord.name member = None ->
  db.update_user_xp member value (rpg.store w) = (new_user, d1) ->
  rpg.level_up (db.xp new_user) (db.level new_user + 1) = false ->
  rpg.update_user_xp member value true (self, w)
  = (Returned tt,
     (rpg.set_config
        (<[discord.name member :=
             {| rpg.value := value;
                rpg.last_update := rpg.clock w (S (S (rpg.reads w))) |}]>
           (rpg.config self)) self,
      rpg.tick (rpg.record (rpg.StorageUpdateUserXp member value) d1
                  (rpg.tick (rpg.tick w))))).
Proof.
  intros Hget Hxp Hup.
  unfold rpg.update_user_xp.
  unfold bind at 1, try_except, rpg.getitem_config. cbn [fst snd]. rewrite Hget.
  unfold bind at 1, on_snd at 1, rpg.time_time. cbn [fst snd].
  unfold bind at 1, rpg.setitem_config at 1. cbn [fst snd rpg.config rpg.set_config].
  rewrite lookup_insert_eq.
  unfold bind at 1, on_snd at 1. cbn [fst snd orb negb andb rpg.value].
  unfold bind at 1, on_snd at 1, rpg.storage.
  cbn [fst snd]. change (rpg.store (rpg.tick (rpg.tick w))) with (rpg.store w).
  rewrite Hxp. cbn [fst snd]. rewrite Hup.
  unfold bind, on_snd, rpg.setitem_config, ret. cbn.
  unfold rpg.set_config. cbn. now rewrite insert_insert_eq.
Qed.

End first_duel_facts.

Lemma update_user_xp_fresh_duel_witness :
  rpg.update_user_xp sample.alice 5 true
    (sample.engine, sample.world (sample.stored 0 1) sample.steady)
  = (Returned tt,
     (rpg.set_config
        (<["alice" := {| rpg.value := 5; rpg.last_update := sample.steady 2 |}]>
           (rpg.config sample.engine)) sample.engine,
      rpg.tick (rpg.record (rpg.StorageUpdateUserXp sample.alice 5)
                  (snd (spec_store.update_user_xp sample.alice 5 (sample.stored 0 1)))
                  (rpg.tick (rpg.tick (sample.world (sample.stored 0 1) sample.steady)))))).
Proof.
  exact (update_user_xp_fresh_duel sample.alice 5 sample.engine
           (sample.world (sample.stored 0 1) sample.steady)
           (fst (spec_store.update_user_xp sample.alice 5 (sample.stored 0 1)))
           (snd (spec_store.update_user_xp sample.alice 5 (sample.stored 0 1)))
           eq_refl eq_refl eq_refl).
Defined.

(* ===================================================================== *)
(** * The activity window: members who share a name                       *)
(* ===================================================================== *)

Section shared_window_facts.
Context {DB Chat : Type} `{!db.Database DB}.

(** X30: windows are keyed by the member's name.  A call outside [duel]
    mode for a member who goes by the name under which a window is open,
    within a minute of the window's timestamp, with the clock advanced and
    the accumulator below the cap, adds its value to that window, whoever
    the window was opened for. *)
Theorem update_user_xp_shared_by_name (owner member : Member) (value : Q)
    (self : rpg.RPG DB Chat) (w : rpg.World DB Chat) (user : rpg.ActivityWindow) :
  discord.name member = discord.name owner ->
  rpg.config self !! discord.name owner = Some user ->
  (0 < rpg.clock w (rpg.reads w) - rpg.last_update user)%Q ->
  (rpg.clock w (rpg.reads w) - rpg.last_update user <= 60)%Q ->
  (rpg.value user < inject_Z rpg.UPDATE_CAP)%Q ->
  rpg.update_user_xp member value false (self, w)
  = (Returned tt,
     (rpg.set_config
        (<[discord.name owner :=
             {| rpg.value := rpg.fadd (rpg.value user) value;
                rpg.last_update := rpg.last_update user |}]> (rpg.config self)) self,
      rpg.tick w)).
Proof.
  intros Hname Hget Hpos Hwin Hcap. rewrite <- Hname in Hget |- *.
  rewrite (update_user_xp_existing member value self w user Hget)
    by now apply within_minute.
  apply Qlt_bool_iff in Hpos, Hcap. now rewrite Hpos, Hcap.
Qed.

End shared_window_facts.

Lemma update_user_xp_shared_by_name_witness :
  rpg.update_user_xp sample.namesake 5 false
    (sample.engine_with 10, sample.later_world ∅)
  = (Returned tt,
     (rpg.set_config
        (<["alice" := {| rpg.value := rpg.fadd 10 5; rpg.last_update := 0 |}]>
           (rpg.config (sample.engine_with 10))) (sample.engine_with 10),
      rpg.tick (sample.later_world ∅))).
Proof.
  apply (update_user_xp_shared_by_name sample.alice sample.namesake 5
           (sample.engine_with 10) (sample.later_world ∅)
           {| rpg.value := 10; rpg.last_update := 0 |}).
  - reflexivity.
  - reflexivity.
  - vm_compute. reflexivity.
  - vm_compute. discriminate.
  - vm_compute. reflexivity.
Defined.
